(** * runtests.py: test discovery, filtering, leak tracking and exit status

    A shallow embedding of [runtests.py] (the unit-test driver of the
    repository) and the properties its specification states about it.

    The script talks to the Python runtime all the time: the file system,
    the import machinery, [unittest], [re], [gc], [coverage].  Those
    collaborators are not part of the script; they are gathered in the
    class [Runtime] below and every function of the script is written
    over an arbitrary instance of it. *)

From Stdlib Require Import Ascii String ZArith.
From stdpp Require Import gmap strings list pretty.

Set Warnings "-register-all".

Open Scope string_scope.
Open Scope list_scope.

(** ** Python strings *)

(** [s.startswith(p)] *)
Fixpoint startswith (s p : string) : bool :=
  match p, s with
  | EmptyString, _ => true
  | String c p', String d s' => if decide (c = d) then startswith s' p' else false
  | String _ _, EmptyString => false
  end.

(** [p in s] for strings: [p] occurs in [s] as a contiguous substring. *)
Fixpoint str_contains (p s : string) : bool :=
  startswith s p ||
  match s with
  | EmptyString => false
  | String _ s' => str_contains p s'
  end.

(** [s.endswith(p)] *)
Definition endswith (s p : string) : bool :=
  let n := String.length s in
  let k := String.length p in
  bool_decide (k <= n)%nat && bool_decide (String.substring (n - k) k s = p).

(** [s[:-3]] *)
Definition slice_to_minus3 (s : string) : string :=
  String.substring 0 (String.length s - 3) s.

(** The part of [p] after its last ['/'], that is [os.path.split(p)[-1]].
    [acc] is the component read since the last separator. *)
Fixpoint split_tail_from (acc p : string) : string :=
  match p with
  | EmptyString => acc
  | String c p' =>
      if decide (c = "/"%char) then split_tail_from "" p'
      else split_tail_from (acc +:+ String c "") p'
  end.

Definition os_path_split_tail (p : string) : string := split_tail_from "" p.

(** [os.path.join(a, b)] on a POSIX system. *)
Definition os_path_join (a b : string) : string :=
  if startswith b "/" then b
  else if decide (a = "") then b
  else if endswith a "/" then a +:+ b
  else a +:+ "/" +:+ b.

(** ** The directory tree under the tests directory *)

Inductive FsNode : Type :=
| FsFile
| FsDir (entries : list (string * FsNode)).

(** [os.path.isfile(os.path.join(dir, name))] for a directory with the given
    entries. *)
Fixpoint isfile_in (entries : list (string * FsNode)) (name : string) : bool :=
  match entries with
  | [] => false
  | (n, FsFile) :: rest => if decide (n = name) then true else isfile_in rest name
  | (n, FsDir _) :: rest => if decide (n = name) then false else isfile_in rest name
  end.

(** The candidate test of the inner loop of [list_dir] on a plain file. *)
Definition is_candidate (suffix name : string) : bool :=
  negb (bool_decide (name = "__init__.py")) &&
  endswith name suffix &&
  negb (startswith name "." || startswith name "_").

(** [list_dir(prefix, dir)], the local function of [load_modules]: the
    (module name, source file) pairs under [dir], in listing order.  The
    recursion follows the tree; a call is only ever made on a directory. *)
Fixpoint list_dir_node (suffix prefix dir : string) (node : FsNode)
  : list (string * string) :=
  match node with
  | FsFile => []
  | FsDir entries =>
      let modpath := os_path_join dir "__init__.py" in
      let has_init := isfile_in entries "__init__.py" in
      let modl := os_path_split_tail dir in
      let files := if has_init then [(prefix +:+ modl, modpath)] else [] in
      let prefix := if has_init then prefix +:+ modl +:+ "." else prefix in
      files ++
      flat_map (fun entry =>
        match entry with
        | (name, child) =>
            let path := os_path_join dir name in
            match child with
            | FsDir _ => list_dir_node suffix (prefix +:+ name +:+ ".") path child
            | FsFile =>
                if is_candidate suffix name
                then [(prefix +:+ slice_to_minus3 name, path)]
                else []
            end
        end) entries
  end.

Definition list_dir (suffix prefix dir : string) (entries : list (string * FsNode))
  : list (string * string) :=
  list_dir_node suffix prefix dir (FsDir entries).

(** ** Exceptions and the effects of the script *)

(** The exceptions the script distinguishes.  [SyntaxError] stands for the
    class and its subclasses; [OtherException] for every other subclass of
    [Exception] ([ImportError], [NameError], ...), with its [str()];
    [SystemExit] derives from [BaseException] only. *)
Inductive PyExc : Type :=
| SyntaxError (msg : string)
| OtherException (msg : string)
| SystemExit (code : Z).

(** [isinstance(e, SyntaxError)] and [isinstance(e, Exception)]. *)
Definition is_SyntaxError (e : PyExc) : bool :=
  match e with SyntaxError _ => true | _ => false end.

Definition is_Exception (e : PyExc) : bool :=
  match e with SyntaxError _ | OtherException _ => true | SystemExit _ => false end.

(** [str(err)] *)
Definition exc_str (e : PyExc) : string :=
  match e with
  | SyntaxError m | OtherException m => m
  | SystemExit c => pretty c
  end.

(** The two runner classes [runner_factory] chooses from. *)
Inductive RunnerKind : Type :=
| TextTestRunner   (* unittest.TextTestRunner *)
| TestRunner.      (* the leak-reporting subclass of the script *)

Inductive LogLevel : Type := CRITICAL | ERROR | WARNING | INFO | DEBUG.

(** A test instance, as far as the script looks at it: [test.id()]. *)
Record TestCase : Type := { test_id : string }.

(** The steps of the script one can watch from outside, in the order it
    takes them. *)
Inductive Event : Type :=
| Stdout (text : string)             (* print(text) *)
| Stderr (text : string)             (* print(text, file=sys.stderr) *)
| PrintHelp                          (* ARGS.print_help() *)
| CoverageStart                      (* cov.start() *)
| CoverageReport                     (* the finally block of runtests *)
| SetLevel (level : LogLevel)        (* logger.setLevel(level) *)
| InstallHandler                     (* unittest.signals.installHandler() *)
| LoadTests (suite : list TestCase)  (* tests = finder.load_tests() *)
| RunSuite (runner : RunnerKind) (verbosity : Z) (failfast : bool)
           (suite : list TestCase).  (* runner_factory(...).run(tests) *)

(** The result of a computation: a value, a raised exception, or a loop
    that is still going when the iteration budget is used up. *)
Inductive Res (A : Type) : Type :=
| Val (a : A)
| Raise (e : PyExc)
| Running.
Arguments Val {A} a.
Arguments Raise {A} e.
Arguments Running {A}.

(** Computations of the script: the events emitted, then the result. *)
Definition M (A : Type) : Type := list Event * Res A.

Definition ret {A} (a : A) : M A := ([], Val a).
Definition raise {A} (e : PyExc) : M A := ([], Raise e).
Definition running {A} : M A := ([], Running).
Definition emit (ev : Event) : M unit := ([ev], Val tt).

Definition bind {A B} (m : M A) (k : A -> M B) : M B :=
  match m with
  | (log, Val a) => let '(log', r) := k a in (log ++ log', r)
  | (log, Raise e) => (log, Raise e)
  | (log, Running) => (log, Running)
  end.

Notation "x <- m ;; k" := (bind m (fun x => k))
  (at level 100, m at next level, right associativity).
Notation "m ;;; k" := (bind m (fun _ => k))
  (at level 100, right associativity).

(** [try: body finally: handler]; the handler runs whether [body] returned
    or raised, and the outcome of [body] stands unless the handler raises. *)
Definition try_finally {A} (body : M A) (handler : M unit) : M A :=
  match body with
  | (log, Running) => (log, Running)
  | (log, r) =>
      match handler with
      | (log', Val _) => (log ++ log', r)
      | (log', Raise e) => (log ++ log', Raise e)
      | (log', Running) => (log ++ log', Running)
      end
  end.

(** [sys.exit(code)] *)
Definition sys_exit {A} (code : Z) : M A := raise (SystemExit code).

(** The events and the outcome of a computation. *)
Definition events {A} (m : M A) : list Event := fst m.
Definition outcome {A} (m : M A) : Res A := snd m.

(** The exit status of the interpreter once [runtests()], the last statement
    of the script, is over: 0 when it returns, the code of a [SystemExit],
    1 for any other exception that nobody caught; none while it runs. *)
Definition exit_status (r : Res unit) : option Z :=
  match r with
  | Val _ => Some 0%Z
  | Raise (SystemExit code) => Some code
  | Raise _ => Some 1%Z
  | Running => None
  end.

(** ** The Python runtime the script runs in *)

(** Objects are known by their identity. *)
Abbreviation PyObj := nat.

(** A module object: its namespace, from attribute name to object. *)
Abbreviation PyModule := (gmap string nat).

(** The result object a runner hands back: [result.wasSuccessful()]. *)
Record RunResult : Type := { wasSuccessful : bool }.

Class Runtime : Type := {
  (** [coverage is not None]: the import at the top of the script worked *)
  coverage_installed : bool;
  (** [os.path.abspath], [os.path.isdir] *)
  os_path_abspath : string -> string;
  os_path_isdir : string -> bool;
  (** the entries of the directory tree at a path, as [os.listdir],
      [os.path.isdir] and [os.path.isfile] show them; a directory that
      cannot be listed, on which [os.listdir] raises [OSError], is outside
      the model *)
  os_tree : string -> list (string * FsNode);
  (** [load_module(modname, sourcefile)]: the module, or what the import raised *)
  load_module : string -> string -> PyExc + PyModule;
  (** [unittest.TestLoader().loadTestsFromTestCase(test_factory)] *)
  loadTestsFromTestCase : PyObj -> list TestCase;
  (** [re.search(pat, s)] is not [None] *)
  re_search : string -> string -> bool;
  (** [runner_factory(verbosity=v, failfast=failfast).run(tests)], for the
      [n]-th run of the process *)
  unittest_run : nat -> RunnerKind -> Z -> bool -> list TestCase -> RunResult;
}.

Section Script.
Context `{Runtime}.

(** ** load_modules *)

(** The loop of [load_modules] over the listing, [mods] being the list
    built so far. *)
Fixpoint load_modules_loop (listing : list (string * string))
    (mods : list (PyModule * string)) : M (list (PyModule * string)) :=
  match listing with
  | [] => ret mods
  | (modname, sourcefile) :: rest =>
      if decide (modname = "runtests") then load_modules_loop rest mods
      else
        match load_module modname sourcefile with
        | inr m => load_modules_loop rest (mods ++ [(m, sourcefile)])
        | inl err =>
            if is_SyntaxError err then raise err
            else if is_Exception err then
              emit (Stderr ("Skipping '" +:+ modname +:+ "': " +:+ exc_str err)) ;;;
              load_modules_loop rest mods
            else raise err
        end
  end.

Definition load_modules_with (basedir suffix : string)
  : M (list (PyModule * string)) :=
  load_modules_loop (list_dir suffix "" basedir (os_tree basedir)) [].

(** [load_modules(basedir)], with the default [suffix='.py'] *)
Definition load_modules (basedir : string) : M (list (PyModule * string)) :=
  load_modules_with basedir ".py".

(** ** TestsFinder *)

(** The value of [includes] and [excludes]: [None] (no [--pattern] on the
    command line), or a sequence of patterns. *)
Definition Patterns : Type := option (list string).

(** Truth value of such a value in [if self._includes:]: [None] and the
    empty sequence are false. *)
Definition truthy (v : Patterns) : bool :=
  match v with
  | Some (_ :: _) => true
  | _ => false
  end.

(** The patterns a [for pat in ...] goes through. *)
Definition patterns_of (v : Patterns) : list string := default [] v.

Record TestsFinder : Type := {
  _testsdir : string;
  _includes : Patterns;
  _excludes : Patterns;
  _test_factories : list PyObj;
}.

(** The inner loop of [find_available_tests] on one module:
    [for name in set(dir(mod)): if 'Test' in name: ... getattr(mod, name)]. *)
Definition module_test_factories (m : PyModule) : list PyObj :=
  flat_map (fun name =>
    if str_contains "Test" name
    then match m !! name with Some obj => [obj] | None => [] end
    else []) (elements (dom m)).

(** [find_available_tests]: the new value of [self._test_factories]. *)
Definition find_available_tests (testsdir : string) : M (list PyObj) :=
  loaded <- load_modules testsdir ;;
  let mods := map fst loaded in
  ret (flat_map module_test_factories mods).

(** [TestsFinder(testsdir, includes, excludes)] *)
Definition TestsFinder_init (testsdir : string) (includes excludes : Patterns)
  : M TestsFinder :=
  factories <- find_available_tests testsdir ;;
  ret {| _testsdir := testsdir; _includes := includes;
         _excludes := excludes; _test_factories := factories |}.

(** [any(re.search(pat, test.id()) for pat in pats)] *)
Definition matches_any (pats : Patterns) (test : TestCase) : bool :=
  existsb (fun pat => re_search pat (test_id test)) (patterns_of pats).

(** The body of the loop of [load_tests] for one factory. *)
Definition load_tests_of (self : TestsFinder) (test_factory : PyObj) : list TestCase :=
  let tests := loadTestsFromTestCase test_factory in
  let tests :=
    if truthy (_includes self)
    then List.filter (fun test => matches_any (_includes self) test) tests
    else tests in
  let tests :=
    if truthy (_excludes self)
    then List.filter (fun test => negb (matches_any (_excludes self) test)) tests
    else tests in
  tests.

(** [load_tests]: the tests of the suite, in the order [addTests] got them. *)
Definition load_tests (self : TestsFinder) : list TestCase :=
  flat_map (load_tests_of self) (_test_factories self).

(** ** runtests *)

(** The options [ARGS.parse_args()] returns.  The flags are booleans (an
    absent [store_true] flag is false in every test the script makes of it);
    [pattern] is [None] when no [--pattern] was given. *)
Record Args : Type := {
  verbose : bool;
  exclude : bool;
  failfast : bool;
  catchbreak : bool;
  forever : bool;
  findleaks : bool;
  quiet : bool;
  testsdir : string;
  coverage : bool;
  pattern : Patterns;
}.

Definition nl : string := String (ascii_of_nat 10) "".

(** The text printed when [--coverage] is asked for without the package. *)
Definition coverage_missing_message : string :=
  let URL := "bitbucket.org/pypa/setuptools/raw/bootstrap/ez_setup.py" in
  "coverage package is not installed." +:+ nl +:+ nl +:+
  "To install coverage3 for Python 3, you need:" +:+ nl +:+
  "  - Setuptools (https://pypi.python.org/pypi/setuptools)" +:+ nl +:+ nl +:+
  "  What worked for me:" +:+ nl +:+
  "  - download " +:+ URL +:+ nl +:+
  "     * curl -O https://" +:+ URL +:+ nl +:+
  "  - python3 ez_setup.py" +:+ nl +:+
  "  - python3 -m easy_install coverage".

(** [v = 0 if args.quiet else args.verbose + 1] *)
Definition verbosity_of (args : Args) : Z :=
  if quiet args then 0%Z else (Z.b2z (verbose args) + 1)%Z.

(** The [if v == 0: ... elif v >= 4: ...] chain on the root logger. *)
Definition set_log_level (v : Z) : M unit :=
  if decide (v = 0%Z) then emit (SetLevel CRITICAL)
  else if decide (v = 1%Z) then emit (SetLevel ERROR)
  else if decide (v = 2%Z) then emit (SetLevel WARNING)
  else if decide (v = 3%Z) then emit (SetLevel INFO)
  else if decide (4 <= v)%Z then emit (SetLevel DEBUG)
  else ret tt.

(** One pass of the body shared by both branches of the [try]: build the
    suite, run it; [n] counts the runs made before this one. *)
Definition run_once (finder : TestsFinder) (runner_factory : RunnerKind)
    (v : Z) (failfast : bool) (n : nat) : M RunResult :=
  let tests := load_tests finder in
  emit (LoadTests tests) ;;;
  emit (RunSuite runner_factory v failfast tests) ;;;
  ret (unittest_run n runner_factory v failfast tests).

(** [while True:] of the [--forever] branch, for at most [fuel] iterations. *)
Fixpoint forever_loop (fuel : nat) (finder : TestsFinder)
    (runner_factory : RunnerKind) (v : Z) (failfast : bool) (n : nat) : M unit :=
  match fuel with
  | O => running
  | S fuel' =>
      result <- run_once finder runner_factory v failfast n ;;
      if negb (wasSuccessful result) then sys_exit 1
      else forever_loop fuel' finder runner_factory v failfast (S n)
  end.

(** The [finally] block. *)
Definition coverage_report (args : Args) : M unit :=
  if coverage args then emit CoverageReport else ret tt.

(** [excludes = includes = []], then the [if args.exclude:] that hands
    [args.pattern] to one of the two; the result is [(includes, excludes)]. *)
Definition select_patterns (args : Args) : Patterns * Patterns :=
  let excludes : Patterns := Some [] in
  let includes : Patterns := Some [] in
  if exclude args then (includes, pattern args) else (pattern args, excludes).

(** [finder = TestsFinder(args.testsdir, includes, excludes)] *)
Definition runtests_finder (args : Args) : M TestsFinder :=
  let '(includes, excludes) := select_patterns args in
  TestsFinder_init (testsdir args) includes excludes.

(** [runtests()], from the point where [setup_tests()] is done and
    [ARGS.parse_args()] has returned the options [args].  [fuel] bounds the
    iterations of the [--forever] loop and nothing else. *)
Definition runtests (args : Args) (fuel : nat) : M unit :=
  if coverage args && negb coverage_installed then
    emit (Stdout coverage_missing_message) ;;;
    sys_exit 1
  else
    let testsdir_abs := os_path_abspath (testsdir args) in
    if negb (os_path_isdir testsdir_abs) then
      emit (Stdout ("Tests directory is not found: " +:+ testsdir_abs +:+ nl)) ;;;
      emit PrintHelp ;;;
      ret tt
    else
      let v := verbosity_of args in
      let runner_factory := if findleaks args then TestRunner else TextTestRunner in
      (if coverage args then emit CoverageStart else ret tt) ;;;
      finder <- runtests_finder args ;;
      set_log_level v ;;;
      (if catchbreak args then emit InstallHandler else ret tt) ;;;
      try_finally
        (if forever args then
           forever_loop fuel finder runner_factory v (failfast args) 0
         else
           result <- run_once finder runner_factory v (failfast args) 0 ;;
           sys_exit (Z.b2z (negb (wasSuccessful result))))
        (coverage_report args).

End Script.

(** ** TestResult: the leak-detecting result collector *)

(** How a test ended, that is which [add...] method [unittest] calls. *)
Inductive TestOutcome : Type :=
| Success | Failure | Error | Skip | ExpectedFailure | UnexpectedSuccess.

#[export] Instance TestOutcome_eq_dec : EqDecision TestOutcome :=
  ltac:(solve_decision).

(** The state of the garbage collector the script looks at.  Objects are
    numbered in allocation order.  [gc_unreached] holds the unreachable
    objects the collector cannot free and has not come across yet;
    [gc.collect()] appends them to [gc.garbage]. *)
Record GC : Type := {
  gc_garbage : list PyObj;
  gc_unreached : list PyObj;
  gc_next : nat;
}.

Definition gc_start : GC := {| gc_garbage := []; gc_unreached := []; gc_next := 0 |}.

(** [gc.collect()] *)
Definition gc_collect (g : GC) : GC :=
  {| gc_garbage := gc_garbage g ++ gc_unreached g;
     gc_unreached := [];
     gc_next := gc_next g |}.

(** A test body that leaves [n] new uncollectable objects behind. *)
Definition gc_leave (n : nat) (g : GC) : GC :=
  {| gc_garbage := gc_garbage g;
     gc_unreached := gc_unreached g ++ seq (gc_next g) n;
     gc_next := gc_next g + n |}.

(** [del gc.garbage[:]] *)
Definition gc_clear_garbage (g : GC) : GC :=
  {| gc_garbage := []; gc_unreached := gc_unreached g; gc_next := gc_next g |}.

(** The base class [unittest.TextTestResult], with state [Base]: the methods
    [TestResult] calls through [super()] or inherits, and the attributes it
    reads. *)
Class TextTestResult (Base : Type) : Type := {
  super_startTest : Base -> TestCase -> Base;
  super_addSuccess : Base -> TestCase -> Base;
  (** [addFailure], [addError], [addSkip], ...: inherited as they are *)
  inherited_add : TestOutcome -> Base -> TestCase -> Base;
  showAll : Base -> bool;
  stream_writeln : string -> Base -> Base;
  getDescription : Base -> TestCase -> string;
}.

Section Leaks.
Context {Base : Type} `{TextTestResult Base}.

(** An instance of [TestResult]: the inherited state and [self.leaks]. *)
Record TestResult : Type := {
  base : Base;
  leaks : list (string * list PyObj);
}.

(** [TestResult.__init__] on a freshly built base object. *)
Definition TestResult_init (b : Base) : TestResult :=
  {| base := b; leaks := [] |}.

(** The methods act on the result object and on the collector. *)
Definition startTest (self : TestResult) (g : GC) (test : TestCase)
  : TestResult * GC :=
  ({| base := super_startTest (base self) test; leaks := leaks self |},
   gc_collect g).

Definition addSuccess (self : TestResult) (g : GC) (test : TestCase)
  : TestResult * GC :=
  let b := super_addSuccess (base self) test in
  let g := gc_collect g in
  match gc_garbage g with
  | [] => ({| base := b; leaks := leaks self |}, g)
  | _ :: _ =>
      let b :=
        if showAll b
        then stream_writeln ("    Warning: test created " +:+
                             pretty (length (gc_garbage g)) +:+
                             " uncollectable object(s).") b
        else b in
      ({| base := b;
          leaks := leaks self ++ [(getDescription b test, gc_garbage g)] |},
       gc_clear_garbage g)
  end.

(** Any other outcome goes to the method of the base class. *)
Definition addOther (o : TestOutcome) (self : TestResult) (g : GC) (test : TestCase)
  : TestResult * GC :=
  ({| base := inherited_add o (base self) test; leaks := leaks self |}, g).

(** One test as [unittest] drives it: [startTest], the body of the test,
    then the [add...] call of its outcome. *)
Record Execution : Type := {
  exec_test : TestCase;
  exec_outcome : TestOutcome;
  exec_left : nat;   (* uncollectable objects the body leaves unreachable *)
}.

Definition run_test (st : TestResult * GC) (e : Execution) : TestResult * GC :=
  let '(self, g) := st in
  let '(self, g) := startTest self g (exec_test e) in
  let g := gc_leave (exec_left e) g in
  match exec_outcome e with
  | Success => addSuccess self g (exec_test e)
  | o => addOther o self g (exec_test e)
  end.

(** A whole run on one result object. *)
Definition run_tests (st : TestResult * GC) (es : list Execution)
  : TestResult * GC :=
  fold_left run_test es st.

(** The objects a test of the run left behind: the [exec_left] objects
    allocated from [gc_next] on. *)
Definition left_by (g : GC) (e : Execution) : list PyObj :=
  seq (gc_next g) (exec_left e).

(** Every uncollectable object of the process: those recorded in leak
    entries, those in [gc.garbage], those no collection has met yet. *)
Definition tracked (st : TestResult * GC) : list PyObj :=
  concat (leaks (fst st)).*2 ++ gc_garbage (snd st) ++ gc_unreached (snd st).

(** Each of them is held in one place, and is an object allocated so far. *)
Definition consistent (st : TestResult * GC) : Prop :=
  NoDup (tracked st) /\ Forall (fun obj => obj < gc_next (snd st)) (tracked st).

(** What the collector holds when [addSuccess] looks at [gc.garbage] at the
    end of test [e] started in state [st]. *)
Definition uncollected_after (st : TestResult * GC) (e : Execution) : list PyObj :=
  gc_garbage (snd st) ++ gc_unreached (snd st) ++ left_by (snd st) e.

End Leaks.

(** ** A small concrete world

    A tests directory with two test modules.  Both import
    [unittest.TestCase] (object 7) next to the test class they define, as
    test modules do; [test_b] also keeps a helper whose name is no test
    name.  Regular expressions are literal patterns, for which [re.search]
    is substring search. *)
Module Sample.

Definition tree : list (string * FsNode) :=
  [("test_a.py", FsFile); ("test_b.py", FsFile); ("_private.py", FsFile);
   ("notes.txt", FsFile)].

Definition module_a : PyModule := {[ "TestCase" := 7; "ATest" := 1 ]}.
Definition module_b : PyModule := {[ "TestCase" := 7; "BTests" := 2; "helper" := 3 ]}.

Definition tests_of (factory : PyObj) : list TestCase :=
  match factory with
  | 1 => [ {| test_id := "test_a.ATest.test_x" |};
           {| test_id := "test_a.ATest.test_y" |};
           {| test_id := "test_a.ATest.test_z" |} ]
  | 2 => [ {| test_id := "test_b.BTests.test_x" |} ]
  | _ => []
  end.

(** The world: whether the coverage package is there, whether the tests
    directory is, what an import gives, and which runs succeed. *)
Definition world (cov isdir : bool) (import : string -> string -> PyExc + PyModule)
    (ok : nat -> bool) : Runtime :=
  {| coverage_installed := cov;
     os_path_abspath := fun p => "/repo/" +:+ p;
     os_path_isdir := fun _ => isdir;
     os_tree := fun _ => tree;
     load_module := import;
     loadTestsFromTestCase := tests_of;
     re_search := str_contains;
     unittest_run := fun n _ _ _ _ => {| wasSuccessful := ok n |} |}.

(** Both modules import. *)
Definition import_ok (modname sourcefile : string) : PyExc + PyModule :=
  if decide (modname = "test_a") then inr module_a else inr module_b.

(** [test_a] fails to import with an [ImportError]. *)
Definition import_a_fails (modname sourcefile : string) : PyExc + PyModule :=
  if decide (modname = "test_a") then inl (OtherException "No module named 'missing'")
  else inr module_b.

(** [test_a] is a script that calls [sys.exit()] when it is imported. *)
Definition import_a_exits (modname sourcefile : string) : PyExc + PyModule :=
  if decide (modname = "test_a") then inl (SystemExit 0)
  else inr module_b.

(** [test_a] does not parse. *)
Definition import_a_syntax (modname sourcefile : string) : PyExc + PyModule :=
  if decide (modname = "test_a") then inl (SyntaxError "invalid syntax")
  else inr module_b.

Definition args : Args :=
  {| verbose := false; exclude := false; failfast := false; catchbreak := false;
     forever := false; findleaks := false; quiet := false; testsdir := "tests";
     coverage := false; pattern := None |}.

Definition with_coverage (a : Args) : Args :=
  {| verbose := verbose a; exclude := exclude a; failfast := failfast a;
     catchbreak := catchbreak a; forever := forever a; findleaks := findleaks a;
     quiet := quiet a; testsdir := testsdir a; coverage := true;
     pattern := pattern a |}.

Definition with_forever (a : Args) : Args :=
  {| verbose := verbose a; exclude := exclude a; failfast := failfast a;
     catchbreak := catchbreak a; forever := true; findleaks := findleaks a;
     quiet := quiet a; testsdir := testsdir a; coverage := coverage a;
     pattern := pattern a |}.

Definition with_patterns (x : bool) (pats : list string) (a : Args) : Args :=
  {| verbose := verbose a; exclude := x; failfast := failfast a;
     catchbreak := catchbreak a; forever := forever a; findleaks := findleaks a;
     quiet := quiet a; testsdir := testsdir a; coverage := coverage a;
     pattern := Some pats |}.

Definition plain : Runtime := world true true import_ok (fun _ => true).
Definition a_fails : Runtime := world true true import_a_fails (fun _ => true).
Definition a_exits : Runtime := world true true import_a_exits (fun _ => true).
Definition a_syntax : Runtime := world true true import_a_syntax (fun _ => true).
Definition no_coverage : Runtime := world false true import_ok (fun _ => true).
Definition no_coverage_no_dir : Runtime := world false false import_ok (fun _ => true).
Definition no_dir : Runtime := world true false import_ok (fun _ => true).
(** Every run succeeds but the third. *)
Definition third_run_fails : Runtime :=
  world true true import_ok (fun n => negb (Nat.eqb n 2)).
Definition first_run_fails : Runtime :=
  world true true import_ok (fun n => negb (Nat.eqb n 0)).

(** A result object whose inherited state is the lines written so far,
    in verbose mode. *)
#[global] Instance lines : TextTestResult (list string) :=
  {| super_startTest := fun b _ => b;
     super_addSuccess := fun b _ => b ++ ["ok"];
     inherited_add := fun _ b _ => b;
     showAll := fun _ => true;
     stream_writeln := fun line b => b ++ [line];
     getDescription := fun _ test => test_id test |}.

Definition failing_leaky : Execution :=
  {| exec_test := {| test_id := "test_a.ATest.test_x" |};
     exec_outcome := Failure; exec_left := 1 |}.

Definition passing_clean : Execution :=
  {| exec_test := {| test_id := "test_a.ATest.test_y" |};
     exec_outcome := Success; exec_left := 0 |}.

Definition passing_leaky : Execution :=
  {| exec_test := {| test_id := "test_a.ATest.test_z" |};
     exec_outcome := Success; exec_left := 2 |}.

Definition fresh : TestResult (Base := list string) * GC := (TestResult_init [], gc_start).

(** Finders over the factories found in that directory. *)
Definition finder (includes excludes : Patterns) : TestsFinder :=
  {| _testsdir := "tests"; _includes := includes; _excludes := excludes;
     _test_factories := [1; 7; 2; 7] |}.


(** A tests directory that is a package, with a package below it. *)
Definition package_tree : list (string * FsNode) :=
  [("__init__.py", FsFile); ("test_c.py", FsFile);
   ("sub", FsDir [("__init__.py", FsFile); ("test_d.py", FsFile)])].

(** A tests directory that holds a copy of the script. *)
Definition tree_with_script : list (string * FsNode) :=
  [("runtests.py", FsFile); ("test_b.py", FsFile)].

Definition import_script_exits (modname sourcefile : string) : PyExc + PyModule :=
  if decide (modname = "runtests") then inl (SystemExit 2) else inr module_b.

Definition import_script_loads (modname sourcefile : string) : PyExc + PyModule :=
  if decide (modname = "runtests") then inr module_a else inr module_b.

Definition world_with_script (import : string -> string -> PyExc + PyModule)
  : Runtime :=
  {| coverage_installed := true;
     os_path_abspath := fun p => "/repo/" +:+ p;
     os_path_isdir := fun _ => true;
     os_tree := fun _ => tree_with_script;
     load_module := import;
     loadTestsFromTestCase := tests_of;
     re_search := str_contains;
     unittest_run := fun n _ _ _ _ => {| wasSuccessful := true |} |}.

End Sample.

(** ** Vocabulary of the specification *)

Section Vocabulary.
Context `{Runtime}.

(** The test instances the loader makes from the collected factories,
    before any pattern is applied. *)
Definition discovered_tests (self : TestsFinder) : list TestCase :=
  flat_map loadTestsFromTestCase (_test_factories self).

(** A copy of the finder with other patterns. *)
Definition with_includes (includes : Patterns) (self : TestsFinder) : TestsFinder :=
  {| _testsdir := _testsdir self; _includes := includes;
     _excludes := _excludes self; _test_factories := _test_factories self |}.

Definition with_excludes (excludes : Patterns) (self : TestsFinder) : TestsFinder :=
  {| _testsdir := _testsdir self; _includes := _includes self;
     _excludes := excludes; _test_factories := _test_factories self |}.

(** The test of the include step, and of the exclude step, on one test. *)
Definition passes_includes (self : TestsFinder) (test : TestCase) : bool :=
  if truthy (_includes self) then matches_any (_includes self) test else true.

Definition passes_excludes (self : TestsFinder) (test : TestCase) : bool :=
  if truthy (_excludes self) then negb (matches_any (_excludes self) test) else true.

(** The bindings of a module whose name carries the marker. *)
Definition marked_bindings (m : PyModule) : list (string * PyObj) :=
  List.filter (fun binding => str_contains "Test" (fst binding)) (map_to_list m).

(** An import that [load_modules] lets through to its caller. *)
Definition propagates (e : PyExc) : bool :=
  is_SyntaxError e || negb (is_Exception e).

(** What the import of one entry of the listing comes to. *)
Inductive Import : Type :=
| Ignored                          (* the module is runtests itself *)
| Loaded (m : PyModule)
| Skipped (message : string)       (* caught and reported *)
| Aborted (e : PyExc).             (* raised further *)

Definition import_of (entry : string * string) : Import :=
  let '(modname, sourcefile) := entry in
  if decide (modname = "runtests") then Ignored
  else match load_module modname sourcefile with
       | inr m => Loaded m
       | inl e =>
           if propagates e then Aborted e
           else Skipped ("Skipping '" +:+ modname +:+ "': " +:+ exc_str e)
       end.

Definition aborts (entry : string * string) : bool :=
  match import_of entry with Aborted _ => true | _ => false end.

(** The modules and the skip reports of a listing none of whose imports
    is raised further. *)
Definition loaded_of (listing : list (string * string)) : list (PyModule * string) :=
  flat_map (fun entry =>
    match import_of entry with Loaded m => [(m, snd entry)] | _ => [] end) listing.

Definition skips_of (listing : list (string * string)) : list Event :=
  flat_map (fun entry =>
    match import_of entry with Skipped msg => [Stderr msg] | _ => [] end) listing.

(** The results of the runs recorded in a trace, the first of which is the
    [n]-th run of the process. *)
Fixpoint run_results_from (n : nat) (evs : list Event) : list RunResult :=
  match evs with
  | [] => []
  | RunSuite runner v ff suite :: evs' =>
      unittest_run n runner v ff suite :: run_results_from (S n) evs'
  | _ :: evs' => run_results_from n evs'
  end.

Definition run_results (evs : list Event) : list RunResult := run_results_from 0 evs.

(** The steps of a trace that build or run a suite. *)
Definition is_suite_step (ev : Event) : bool :=
  match ev with
  | LoadTests _ | RunSuite _ _ _ _ => true
  | _ => false
  end.

Definition suite_steps (evs : list Event) : list Event := List.filter is_suite_step evs.

(** One iteration of the forever loop, seen from outside. *)
Definition iteration (finder : TestsFinder) (runner : RunnerKind) (v : Z) (ff : bool)
  : list Event :=
  [LoadTests (load_tests finder); RunSuite runner v ff (load_tests finder)].

(** A trace in which no suite is built or run. *)
Definition no_suite_step (evs : list Event) : Prop :=
  Forall (fun ev => is_suite_step ev = false) evs.

(** The [try] block of [runtests] with its [finally], for a finder. *)
Definition guarded_runs (args : Args) (fuel : nat) (finder : TestsFinder) : M unit :=
  let v := verbosity_of args in
  let runner_factory := if findleaks args then TestRunner else TextTestRunner in
  try_finally
    (if forever args then
       forever_loop fuel finder runner_factory v (failfast args) 0
     else
       result <- run_once finder runner_factory v (failfast args) 0 ;;
       sys_exit (Z.b2z (negb (wasSuccessful result))))
    (coverage_report args).

(** The result of the [n]-th run of the process on the suite of a finder. *)
Definition loop_result (finder : TestsFinder) (runner : RunnerKind) (v : Z)
    (ff : bool) (n : nat) : RunResult :=
  unittest_run n runner v ff (load_tests finder).

Definition nth_result (args : Args) (finder : TestsFinder) (n : nat) : RunResult :=
  loop_result finder (if findleaks args then TestRunner else TextTestRunner)
    (verbosity_of args) (failfast args) n.

(** The check on the coverage package at the top of [runtests] stops the
    script. *)
Definition coverage_missing (args : Args) : bool :=
  coverage args && negb coverage_installed.

End Vocabulary.

(** ** The rest of the script, and more vocabulary *)

(** Every plain file under a directory, by name and path, in listing
    order. *)
Fixpoint fs_files (dir : string) (node : FsNode) : list (string * string) :=
  match node with
  | FsFile => []
  | FsDir entries =>
      flat_map (fun entry =>
        match entry with
        | (name, child) =>
            let path := os_path_join dir name in
            match child with
            | FsDir _ => fs_files path child
            | FsFile => [(name, path)]
            end
        end) entries
  end.

(** The entries of a directory that are plain files. *)
Definition plain_files (entries : list (string * FsNode)) : Prop :=
  Forall (fun entry => snd entry = FsFile) entries.

(** Induction on a directory tree, with the children of a directory at
    hand. *)
Fixpoint FsNode_tree_ind (P : FsNode -> Prop) (Hfile : P FsFile)
    (Hdir : forall entries, Forall (fun entry => P (snd entry)) entries ->
                            P (FsDir entries))
    (node : FsNode) : P node :=
  match node with
  | FsFile => Hfile
  | FsDir entries =>
      Hdir entries
        ((fix children (es : list (string * FsNode))
            : Forall (fun entry => P (snd entry)) es :=
            match es with
            | [] => List.Forall_nil _
            | entry :: es' =>
                @List.Forall_cons _ (fun entry => P (snd entry)) entry es'
                  (FsNode_tree_ind P Hfile Hdir (snd entry)) (children es')
            end) entries)
  end.

(** [TestRunner.run], after [super().run(test)] has handed back [result]:
    the lines of the leak report, which go to the stream of the runner. *)
Definition leak_report (repr : PyObj -> string) (leaks : list (string * list PyObj))
  : list string :=
  match leaks with
  | [] => []
  | _ :: _ =>
      (pretty (length leaks) +:+ " tests leaks:") ::
      flat_map (fun entry =>
        ("    " +:+ fst entry +:+ ":") ::
        map (fun leak => "        " +:+ repr leak) (snd entry)) leaks
  end.

Definition TestRunner_run {Base : Type} `{TextTestResult Base}
    (repr : PyObj -> string) (result : TestResult) : TestResult :=
  {| base := fold_left (fun b line => stream_writeln line b)
                        (leak_report repr (leaks result)) (base result);
     leaks := leaks result |}.

(** The successful tests of a run, and the objects its tests leave. *)
Definition successes (es : list Execution) : nat :=
  length (List.filter (fun e => bool_decide (exec_outcome e = Success)) es).

Definition total_left (es : list Execution) : nat :=
  list_sum (map exec_left es).

(** The reports [load_modules] writes. *)
Definition is_skip_report (ev : Event) : Prop :=
  exists modname reason, ev = Stderr ("Skipping '" +:+ modname +:+ "': " +:+ reason).

(** A step of the script that has to do with coverage. *)
Definition is_coverage_step (ev : Event) : bool :=
  match ev with
  | CoverageStart | CoverageReport => true
  | _ => false
  end.

Section TraceVocabulary.
Context `{Runtime}.

(** The [try] block of [runtests], without its [finally]. *)
Definition runs (args : Args) (fuel : nat) (finder : TestsFinder) : M unit :=
  let v := verbosity_of args in
  let runner_factory := if findleaks args then TestRunner else TextTestRunner in
  if forever args then
    forever_loop fuel finder runner_factory v (failfast args) 0
  else
    result <- run_once finder runner_factory v (failfast args) 0 ;;
    sys_exit (Z.b2z (negb (wasSuccessful result))).

(** The level the options ask for. *)
Definition expected_level (args : Args) : LogLevel :=
  if quiet args then CRITICAL else if verbose args then WARNING else ERROR.

(** What the steps before the [try] block amount to, once the finder is
    there. *)
Definition setup_steps (args : Args) (finder_log : list Event) : list Event :=
  (if coverage args then [CoverageStart] else []) ++ finder_log ++
  [SetLevel (expected_level args)] ++
  (if catchbreak args then [InstallHandler] else []).

(** A step in keeping with the options. *)
Definition step_allowed (args : Args) (ev : Event) : Prop :=
  match ev with
  | Stdout _ | Stderr _ | PrintHelp => True
  | CoverageStart | CoverageReport => coverage args = true
  | SetLevel level => level = expected_level args
  | InstallHandler => catchbreak args = true
  | LoadTests suite =>
      forall finder, outcome (runtests_finder args) = Val finder ->
                     suite = load_tests finder
  | RunSuite runner v ff suite =>
      runner = (if findleaks args then TestRunner else TextTestRunner) /\
      v = verbosity_of args /\ ff = failfast args /\
      forall finder, outcome (runtests_finder args) = Val finder ->
                     suite = load_tests finder
  end.

(** The tests [runtests] selects among those of a finder, from the options
    alone. *)
Definition selected (args : Args) (finder : TestsFinder) : list TestCase :=
  if truthy (pattern args) then
    List.filter (fun t => if exclude args
                          then negb (matches_any (pattern args) t)
                          else matches_any (pattern args) t)
                (discovered_tests finder)
  else discovered_tests finder.

End TraceVocabulary.

(** * Properties *)

Example sample_listing :
  list_dir ".py" "" "tests" Sample.tree
  = [("test_a", "tests/test_a.py"); ("test_b", "tests/test_b.py")].
Proof. vm_compute. reflexivity. Qed.

Example sample_factories :
  @find_available_tests (Sample.world true true Sample.import_ok (fun _ => true)) "tests"
  = ([], Val [1;7;2;7]).
Proof. vm_compute. reflexivity. Qed.

(** ** Include and exclude patterns *)

Section Filtering.
Context `{Runtime}.

Lemma filter_flat_map {A B} (p : B -> bool) (f : A -> list B) (l : list A) :
  List.filter p (flat_map f l) = flat_map (fun a => List.filter p (f a)) l.
Proof.
  induction l as [|a l IH]; simpl; [reflexivity|].
  rewrite List.filter_app, IH. reflexivity.
Qed.

Lemma filter_filter {A} (p q : A -> bool) (l : list A) :
  List.filter q (List.filter p l) = List.filter (fun a => p a && q a) l.
Proof.
  induction l as [|a l IH]; simpl; [reflexivity|].
  destruct (p a); simpl; [destruct (q a)|]; rewrite ?IH; reflexivity.
Qed.

Lemma filter_all {A} (l : list A) : List.filter (fun _ => true) l = l.
Proof. induction l as [|a l IH]; simpl; congruence. Qed.

(** [load_tests] is the list of discovered instances, in order, less those
    either step drops. *)
Lemma load_tests_filter (self : TestsFinder) :
  load_tests self
  = List.filter (fun t => passes_includes self t && passes_excludes self t)
                (discovered_tests self).
Proof.
  unfold load_tests, discovered_tests. rewrite filter_flat_map.
  apply flat_map_ext. intros factory.
  unfold load_tests_of, passes_includes, passes_excludes.
  destruct (truthy (_includes self)), (truthy (_excludes self)); simpl.
  - apply filter_filter.
  - apply List.filter_ext. intros t. rewrite andb_true_r. reflexivity.
  - reflexivity.
  - symmetry. apply filter_all.
Qed.

Lemma truthy_none_set (pats : Patterns) : truthy pats = false -> patterns_of pats = [].
Proof. destruct pats as [[|p l]|]; simpl; congruence. Qed.



End Filtering.

(** C9.  [runtests] hands the patterns of the command line to one side only:
    with [-x] the include set is empty and the patterns are the exclude set,
    without it the exclude set is empty and the patterns are the include
    set; the two steps of [load_tests] are never both active, and the finder
    [runtests] builds carries exactly these two sets. *)
Theorem patterns_one_sided `{Runtime} (args : Args) :
  (if exclude args
   then fst (select_patterns args) = Some [] /\ snd (select_patterns args) = pattern args
   else snd (select_patterns args) = Some [] /\ fst (select_patterns args) = pattern args)
  /\ truthy (fst (select_patterns args)) && truthy (snd (select_patterns args)) = false
  /\ match outcome (runtests_finder args) with
     | Val finder =>
         _includes finder = fst (select_patterns args) /\
         _excludes finder = snd (select_patterns args)
     | _ => True
     end.
Proof.
  unfold select_patterns, runtests_finder, select_patterns.
  split; [destruct (exclude args); simpl; auto|split].
  - destruct (exclude args); simpl; [reflexivity|apply andb_false_r].
  - unfold TestsFinder_init.
    destruct (exclude args); simpl;
      destruct (find_available_tests (testsdir args)) as [log [factories|e|]];
      simpl; auto.
Qed.






(** ** Discovery *)

Section Discovery.
Context `{Runtime}.

Lemma elements_dom_keys (m : PyModule) : elements (dom m) ≡ₚ (map_to_list m).*1.
Proof.
  apply NoDup_Permutation.
  - apply NoDup_elements.
  - apply NoDup_fst_map_to_list.
  - intros name. rewrite elem_of_elements, elem_of_dom, list_elem_of_fmap.
    split.
    + intros [obj Hobj]. exists (name, obj). split; [reflexivity|].
      apply elem_of_map_to_list. exact Hobj.
    + intros [[name' obj] [-> Hin]]. exists obj.
      apply elem_of_map_to_list in Hin. exact Hin.
Qed.

(** Going through the names and reading each attribute is going through
    the bindings. *)
Lemma read_marked_bindings (m : PyModule) (bindings : list (string * PyObj)) :
  Forall (fun b => m !! fst b = Some (snd b)) bindings ->
  flat_map (fun name =>
    if str_contains "Test" name
    then match m !! name with Some obj => [obj] | None => [] end
    else []) bindings.*1
  = (List.filter (fun b => str_contains "Test" (fst b)) bindings).*2.
Proof.
  induction 1 as [|[name obj] bindings Hb _ IH]; [reflexivity|].
  simpl in Hb. rewrite fmap_cons. cbn [flat_map fst List.filter].
  rewrite IH, Hb. destruct (str_contains "Test" name); reflexivity.
Qed.

Lemma module_test_factories_bindings (m : PyModule) :
  module_test_factories m ≡ₚ (marked_bindings m).*2.
Proof.
  unfold module_test_factories, marked_bindings.
  rewrite <- (read_marked_bindings m).
  - apply Permutation_flat_map, elements_dom_keys.
  - apply Forall_forall. intros [name obj] Hin. simpl.
    apply elem_of_map_to_list. exact Hin.
Qed.

Lemma flat_map_perm_pointwise {A B} (f g : A -> list B) (l : list A) :
  (forall a, f a ≡ₚ g a) -> flat_map f l ≡ₚ flat_map g l.
Proof.
  intros Hfg. induction l as [|a l IH]; simpl; [reflexivity|].
  rewrite (Hfg a), IH. reflexivity.
Qed.

(** C4, binding by binding.  Discovery collects, for every successfully
    loaded module, the object bound to each attribute name that contains the
    marker ['Test']: every such binding of every loaded module gives exactly
    one entry of the list of test factories, and the list has no other
    entry.  Within a module the marked names are distinct and are exactly
    the attribute names that contain the marker.  (An object bound under two
    marked names, or in two loaded modules, is one entry per binding.) *)
Theorem find_available_tests_bindings (testsdir : string)
    (log : list Event) (loaded : list (PyModule * string)) :
  load_modules testsdir = (log, Val loaded) ->
  (exists factories,
     find_available_tests testsdir = (log, Val factories) /\
     factories ≡ₚ flat_map (fun m => (marked_bindings m).*2) loaded.*1)
  /\ (forall m, NoDup (marked_bindings m).*1)
  /\ (forall m name obj,
        In (name, obj) (marked_bindings m)
        <-> m !! name = Some obj /\ str_contains "Test" name = true).
Proof.
  intros Hload. split; [|split].
  - exists (flat_map module_test_factories (map fst loaded)). split.
    + unfold find_available_tests. rewrite Hload. simpl.
      rewrite app_nil_r. reflexivity.
    + apply flat_map_perm_pointwise, module_test_factories_bindings.
  - intros m. unfold marked_bindings.
    pose proof (NoDup_fst_map_to_list m) as Hnd.
    induction (map_to_list m) as [|[name obj] l IH]; simpl in *; [constructor|].
    apply NoDup_cons in Hnd. destruct Hnd as [Hnotin Hnd].
    destruct (str_contains "Test" name); simpl; [|auto].
    apply NoDup_cons. split; [|auto].
    intros Hin. apply Hnotin.
    apply list_elem_of_fmap in Hin. destruct Hin as [b [-> Hb]].
    apply list_elem_of_fmap. exists b. split; [reflexivity|].
    apply list_elem_of_In in Hb. apply List.filter_In in Hb.
    apply list_elem_of_In. tauto.
  - intros m name obj. unfold marked_bindings.
    rewrite List.filter_In, <- list_elem_of_In, elem_of_map_to_list. reflexivity.
Qed.

Lemma loop_no_abort (pre rest : list (string * string)) (mods : list (PyModule * string)) :
  Forall (fun entry => aborts entry = false) pre ->
  load_modules_loop (pre ++ rest) mods
  = (skips_of pre ++ events (load_modules_loop rest (mods ++ loaded_of pre)),
     outcome (load_modules_loop rest (mods ++ loaded_of pre))).
Proof.
  intros Hpre. revert mods.
  induction Hpre as [|[modname sourcefile] pre Hentry _ IH]; intros mods.
  - simpl. rewrite app_nil_r. destruct (load_modules_loop rest mods). reflexivity.
  - unfold aborts, import_of in Hentry.
    unfold skips_of, loaded_of in *. simpl. unfold import_of at 1 3.
    destruct (decide (modname = "runtests")) as [Hrt|Hrt].
    + simpl. apply IH.
    + destruct (load_module modname sourcefile) as [e|m].
      * unfold propagates in *.
        destruct (is_SyntaxError e); simpl in *; [discriminate|].
        destruct (is_Exception e); simpl in *; [|discriminate].
        rewrite IH. reflexivity.
      * simpl. rewrite IH, <- app_assoc. reflexivity.
Qed.

(** C5, for the exceptions the handler covers.  When the import of a module
    raises an exception that derives from [Exception] and is no
    [SyntaxError], [load_modules] catches it, reports it on the standard
    error stream as a skip, and goes on with the remaining modules, keeping
    the modules loaded so far.  A [SyntaxError] is raised further, out of
    [load_modules], and so is an exception that does not derive from
    [Exception], such as [SystemExit]: nothing is reported for it and no
    later module is loaded. *)
Theorem load_modules_import_errors (basedir : string)
    (pre rest : list (string * string)) (modname sourcefile : string) (e : PyExc) :
  list_dir ".py" "" basedir (os_tree basedir) = pre ++ (modname, sourcefile) :: rest ->
  Forall (fun entry => aborts entry = false) pre ->
  modname <> "runtests" ->
  load_module modname sourcefile = inl e ->
  (is_Exception e = true -> is_SyntaxError e = false ->
     load_modules basedir
     = (skips_of pre ++
        Stderr ("Skipping '" +:+ modname +:+ "': " +:+ exc_str e) ::
        events (load_modules_loop rest (loaded_of pre)),
        outcome (load_modules_loop rest (loaded_of pre))))
  /\ (is_SyntaxError e = true -> load_modules basedir = (skips_of pre, Raise e))
  /\ (is_Exception e = false -> load_modules basedir = (skips_of pre, Raise e)).
Proof.
  intros Hlist Hpre Hname Hload.
  unfold load_modules, load_modules_with. rewrite Hlist.
  rewrite (loop_no_abort pre _ [] Hpre). simpl.
  destruct (decide (modname = "runtests")) as [Heq|_]; [contradiction|].
  rewrite Hload. split; [|split].
  - intros He Hs. rewrite Hs, He.
    destruct (load_modules_loop rest (loaded_of pre)) as [log r].
    simpl. destruct r; reflexivity.
  - intros Hs. rewrite Hs. simpl. rewrite app_nil_r. reflexivity.
  - intros He. rewrite He.
    destruct (is_SyntaxError e); simpl; rewrite app_nil_r; reflexivity.
Qed.

End Discovery.

(** Two test modules import [TestCase]: the object is collected twice. *)
Lemma find_available_tests_duplicate :
  @find_available_tests Sample.plain "tests" = ([], Val [1; 7; 2; 7])
  /\ Sample.module_a !! "TestCase" = Some 7
  /\ Sample.module_b !! "TestCase" = Some 7
  /\ ~ NoDup [1; 7; 2; 7].
Proof.
  split; [vm_compute; reflexivity|].
  split; [vm_compute; reflexivity|].
  split; [vm_compute; reflexivity|].
  intros Hnd. apply NoDup_cons in Hnd. destruct Hnd as [_ Hnd].
  apply NoDup_cons in Hnd. destruct Hnd as [Hnotin _].
  apply Hnotin. apply list_elem_of_In. simpl. auto.
Qed.

Lemma find_available_tests_bindings_witness :
  @load_modules Sample.plain "tests"
  = ([], Val [(Sample.module_a, "tests/test_a.py"); (Sample.module_b, "tests/test_b.py")])
  /\ exists factories,
       @find_available_tests Sample.plain "tests" = ([], Val factories) /\
       factories ≡ₚ [1; 7; 2; 7].
Proof.
  assert (Hload : @load_modules Sample.plain "tests"
    = ([], Val [(Sample.module_a, "tests/test_a.py");
                (Sample.module_b, "tests/test_b.py")])).
  { vm_compute. reflexivity. }
  split; [exact Hload|].
  destruct (@find_available_tests_bindings Sample.plain "tests" _ _ Hload)
    as ((factories & Hfind & Hperm) & _).
  exists factories. split; [exact Hfind|].
  rewrite Hperm. vm_compute. reflexivity.
Defined.

(** A test module that calls [sys.exit()] when imported: the exception is
    no [SyntaxError], and it is neither caught nor reported; the module
    after it is never loaded. *)
Lemma load_modules_system_exit_escapes :
  list_dir ".py" "" "tests" Sample.tree
  = [("test_a", "tests/test_a.py"); ("test_b", "tests/test_b.py")]
  /\ @load_module Sample.a_exits "test_a" "tests/test_a.py" = inl (SystemExit 0)
  /\ is_SyntaxError (SystemExit 0) = false
  /\ @load_modules Sample.a_exits "tests" = ([], Raise (SystemExit 0)).
Proof. repeat split; vm_compute; reflexivity. Qed.

Lemma load_modules_import_errors_witness :
  (list_dir ".py" "" "tests" (@os_tree Sample.a_fails "tests")
   = [] ++ ("test_a", "tests/test_a.py") :: [("test_b", "tests/test_b.py")]
   /\ Forall (fun entry => @aborts Sample.a_fails entry = false) []
   /\ "test_a" <> "runtests"
   /\ @load_module Sample.a_fails "test_a" "tests/test_a.py"
      = inl (OtherException "No module named 'missing'"))
  /\ @load_modules Sample.a_fails "tests"
     = ([Stderr "Skipping 'test_a': No module named 'missing'"],
        Val [(Sample.module_b, "tests/test_b.py")]).
Proof.
  assert (Hlist : list_dir ".py" "" "tests" (@os_tree Sample.a_fails "tests")
    = [] ++ ("test_a", "tests/test_a.py") :: [("test_b", "tests/test_b.py")]).
  { vm_compute. reflexivity. }
  assert (Hname : "test_a" <> "runtests") by discriminate.
  split; [split; [exact Hlist|split; [constructor|split; [exact Hname|reflexivity]]]|].
  destruct (@load_modules_import_errors Sample.a_fails "tests" [] _ _ _ _
              Hlist (List.Forall_nil _) Hname eq_refl) as (Hskip & _ & _).
  rewrite (Hskip eq_refl eq_refl). vm_compute. reflexivity.
Defined.

(** ** Runs and exit status *)

Section Runs.
Context `{Runtime}.

Lemma no_suite_step_app (evs evs' : list Event) :
  no_suite_step evs -> no_suite_step evs' -> no_suite_step (evs ++ evs').
Proof. unfold no_suite_step. intros. apply Forall_app. split; assumption. Qed.

Lemma run_results_skip (evs evs' : list Event) (n : nat) :
  no_suite_step evs -> run_results_from n (evs ++ evs') = run_results_from n evs'.
Proof.
  induction 1 as [|ev evs Hev _ IH]; simpl; [reflexivity|].
  destruct ev; simpl in Hev; try discriminate; exact IH.
Qed.

Lemma run_results_none (evs : list Event) (n : nat) :
  no_suite_step evs -> run_results_from n evs = [].
Proof.
  intros Hq. rewrite <- (app_nil_r evs). rewrite run_results_skip; auto.
Qed.

Lemma suite_steps_skip (evs evs' : list Event) :
  no_suite_step evs -> suite_steps (evs ++ evs') = suite_steps evs'.
Proof.
  unfold suite_steps. induction 1 as [|ev evs Hev _ IH]; simpl; [reflexivity|].
  rewrite Hev. exact IH.
Qed.

Lemma suite_steps_none (evs : list Event) : no_suite_step evs -> suite_steps evs = [].
Proof.
  intros Hq. rewrite <- (app_nil_r evs). rewrite suite_steps_skip; auto.
Qed.

Lemma load_modules_loop_no_suite (listing : list (string * string))
    (mods : list (PyModule * string)) :
  no_suite_step (events (load_modules_loop listing mods)).
Proof.
  revert mods. induction listing as [|[modname sourcefile] rest IH]; intros mods; simpl.
  - constructor.
  - destruct (decide (modname = "runtests")); [apply IH|].
    destruct (load_module modname sourcefile) as [e|m]; [|apply IH].
    destruct (is_SyntaxError e); [constructor|].
    destruct (is_Exception e); [|constructor].
    specialize (IH mods). simpl.
    destruct (load_modules_loop rest mods) as [log r]. simpl in *.
    destruct r; constructor; auto.
Qed.

Lemma runtests_finder_no_suite (args : Args) :
  no_suite_step (events (runtests_finder args)).
Proof.
  unfold runtests_finder, TestsFinder_init, find_available_tests, load_modules,
    load_modules_with.
  destruct (select_patterns args) as [includes excludes].
  pose proof (load_modules_loop_no_suite
    (list_dir ".py" "" (testsdir args) (os_tree (testsdir args))) []) as Hq.
  destruct (load_modules_loop _ _) as [log [loaded|e|]]; simpl in *;
    rewrite ?app_nil_r; exact Hq.
Qed.

Lemma set_log_level_val (v : Z) :
  outcome (set_log_level v) = Val tt /\ no_suite_step (events (set_log_level v)).
Proof.
  unfold set_log_level.
  repeat (case_decide; [split; [reflexivity|repeat constructor]|]).
  split; [reflexivity|constructor].
Qed.

Lemma runtests_eq (args : Args) (fuel : nat) :
  runtests args fuel
  = if coverage_missing args then
      emit (Stdout coverage_missing_message) ;;; sys_exit 1
    else if negb (os_path_isdir (os_path_abspath (testsdir args))) then
      emit (Stdout ("Tests directory is not found: " +:+
                    os_path_abspath (testsdir args) +:+ nl)) ;;;
      emit PrintHelp ;;; ret tt
    else
      (if coverage args then emit CoverageStart else ret tt) ;;;
      finder <- runtests_finder args ;;
      set_log_level (verbosity_of args) ;;;
      (if catchbreak args then emit InstallHandler else ret tt) ;;;
      guarded_runs args fuel finder.
Proof. reflexivity. Qed.

(** [runtests] stops before the [try] block, having built and run no
    suite, or gets there with a finder. *)
Lemma runtests_stages (args : Args) (fuel : nat) :
  (no_suite_step (events (runtests args fuel)) /\
   forall finder, outcome (runtests_finder args) = Val finder ->
     coverage_missing args = true \/
     os_path_isdir (os_path_abspath (testsdir args)) = false)
  \/ (exists pre finder,
        coverage_missing args = false /\
        os_path_isdir (os_path_abspath (testsdir args)) = true /\
        outcome (runtests_finder args) = Val finder /\
        no_suite_step pre /\
        runtests args fuel
        = (pre ++ events (guarded_runs args fuel finder),
           outcome (guarded_runs args fuel finder))).
Proof.
  rewrite runtests_eq.
  destruct (coverage_missing args).
  { left. split; [repeat constructor|auto]. }
  destruct (os_path_isdir (os_path_abspath (testsdir args))).
  2:{ left. split; [repeat constructor|auto]. }
  simpl negb. cbv iota.
  pose proof (runtests_finder_no_suite args) as Hfinder.
  destruct (set_log_level_val (verbosity_of args)) as [Hlevel Hlq].
  destruct (runtests_finder args) as [flog [finder|e|]] eqn:Hf; simpl in Hfinder.
  - right.
    destruct (set_log_level (verbosity_of args)) as [llog lr]. simpl in *. subst lr.
    destruct (guarded_runs args fuel finder) as [glog gr] eqn:Hg.
    exists ((if coverage args then [CoverageStart] else []) ++ flog ++ llog ++
            (if catchbreak args then [InstallHandler] else [])), finder.
    repeat split; auto.
    + repeat apply no_suite_step_app; auto;
        [destruct (coverage args)|destruct (catchbreak args)]; repeat constructor.
    + rewrite Hg. destruct (coverage args), (catchbreak args); simpl;
        rewrite <- ?app_assoc; simpl; rewrite <- ?app_assoc; simpl;
        rewrite ?app_nil_r; reflexivity.
  - left. split; [|intros ? Hv; discriminate Hv].
    destruct (coverage args); simpl; rewrite ?app_nil_r; auto.
    constructor; auto.
  - left. split; [|intros ? Hv; discriminate Hv].
    destruct (coverage args); simpl; rewrite ?app_nil_r; auto.
    constructor; auto.
Qed.

Section Loop.
Variables (finder : TestsFinder) (runner : RunnerKind) (v : Z) (ff : bool).

Lemma forever_loop_step (fuel n : nat) :
  forever_loop (S fuel) finder runner v ff n
  = if wasSuccessful (loop_result finder runner v ff n)
    then (iteration finder runner v ff ++
            events (forever_loop fuel finder runner v ff (S n)),
          outcome (forever_loop fuel finder runner v ff (S n)))
    else (iteration finder runner v ff, Raise (SystemExit 1)).
Proof.
  simpl. fold (loop_result finder runner v ff n).
  destruct (wasSuccessful (loop_result finder runner v ff n)); simpl; [|reflexivity].
  destruct (forever_loop fuel finder runner v ff (S n)) as [log r].
  destruct r; reflexivity.
Qed.

Lemma forever_loop_all_ok (fuel n : nat) :
  (forall i, i < fuel -> wasSuccessful (loop_result finder runner v ff (n + i)) = true) ->
  forever_loop fuel finder runner v ff n
  = (concat (replicate fuel (iteration finder runner v ff)), Running).
Proof.
  revert n. induction fuel as [|fuel IH]; intros n Hok; [reflexivity|].
  rewrite forever_loop_step.
  replace (wasSuccessful (loop_result finder runner v ff n)) with true
    by (symmetry; rewrite <- (Nat.add_0_r n); apply Hok; lia).
  rewrite IH; [reflexivity|].
  intros i Hi. replace (S n + i) with (n + S i) by lia. apply Hok. lia.
Qed.

Lemma forever_loop_fails (j fuel n : nat) :
  j < fuel ->
  (forall i, i < j -> wasSuccessful (loop_result finder runner v ff (n + i)) = true) ->
  wasSuccessful (loop_result finder runner v ff (n + j)) = false ->
  forever_loop fuel finder runner v ff n
  = (concat (replicate (S j) (iteration finder runner v ff)), Raise (SystemExit 1)).
Proof.
  revert fuel n. induction j as [|j IH]; intros fuel n Hlt Hok Hfail.
  - destruct fuel as [|fuel]; [lia|]. rewrite forever_loop_step.
    rewrite Nat.add_0_r in Hfail. rewrite Hfail. reflexivity.
  - destruct fuel as [|fuel]; [lia|]. rewrite forever_loop_step.
    replace (wasSuccessful (loop_result finder runner v ff n)) with true
      by (symmetry; rewrite <- (Nat.add_0_r n); apply Hok; lia).
    rewrite (IH fuel (S n)).
    + reflexivity.
    + lia.
    + intros i Hi. replace (S n + i) with (n + S i) by lia. apply Hok. lia.
    + replace (S n + j) with (n + S j) by lia. exact Hfail.
Qed.

(** The loop ends in one way only: [sys.exit(1)] after a run that was not
    successful. *)
Lemma forever_loop_last (fuel n : nat) :
  let m := forever_loop fuel finder runner v ff n in
  (outcome m = Running /\
   Forall (fun r => wasSuccessful r = true) (run_results_from n (events m)))
  \/ (outcome m = Raise (SystemExit 1) /\
      exists r, last (run_results_from n (events m)) = Some r /\
                wasSuccessful r = false).
Proof.
  revert n. induction fuel as [|fuel IH]; intros n.
  - left. split; [reflexivity|constructor].
  - cbv zeta. rewrite forever_loop_step. fold (loop_result finder runner v ff n).
    destruct (wasSuccessful (loop_result finder runner v ff n)) eqn:Hok.
    + specialize (IH (S n)). cbv zeta in IH. simpl.
      fold (loop_result finder runner v ff n).
      destruct IH as [[Hrun Hall]|[Hexit (r & Hlast & Hr)]].
      * left. split; [exact Hrun|]. constructor; assumption.
      * right. split; [exact Hexit|]. exists r. split; [|exact Hr].
        rewrite last_cons, Hlast. reflexivity.
    + right. split; [reflexivity|]. exists (loop_result finder runner v ff n). split; [reflexivity|exact Hok].
Qed.

End Loop.

Lemma run_results_quiet_tail (evs evs' : list Event) (n : nat) :
  no_suite_step evs' -> run_results_from n (evs ++ evs') = run_results_from n evs.
Proof.
  intros Hq. revert n. induction evs as [|ev evs IH]; intros n; simpl.
  - apply run_results_none. exact Hq.
  - destruct ev; rewrite ?IH; reflexivity.
Qed.

Lemma suite_steps_quiet_tail (evs evs' : list Event) :
  no_suite_step evs' -> suite_steps (evs ++ evs') = suite_steps evs.
Proof.
  intros Hq. unfold suite_steps. rewrite List.filter_app.
  pose proof (suite_steps_none evs' Hq) as Hnone. unfold suite_steps in Hnone.
  rewrite Hnone. apply app_nil_r.
Qed.

Lemma coverage_report_val (args : Args) :
  outcome (coverage_report args) = Val tt /\
  no_suite_step (events (coverage_report args)).
Proof.
  unfold coverage_report. destruct (coverage args);
    (split; [reflexivity|repeat constructor]).
Qed.

(** The [finally] block changes neither the outcome of the [try] block nor
    the suites built and run. *)
Lemma try_finally_report {A} (body : M A) (args : Args) :
  outcome (try_finally body (coverage_report args)) = outcome body /\
  exists post, no_suite_step post /\
    events (try_finally body (coverage_report args)) = events body ++ post.
Proof.
  destruct (coverage_report_val args) as [Hval Hq].
  destruct (coverage_report args) as [rlog rr]. simpl in *. subst rr.
  destruct body as [log [a|e|]]; simpl.
  - split; [reflexivity|]. exists rlog. auto.
  - split; [reflexivity|]. exists rlog. auto.
  - split; [reflexivity|]. exists []. rewrite app_nil_r. split; [constructor|reflexivity].
Qed.

Lemma suite_steps_iterations (finder : TestsFinder) (runner : RunnerKind)
    (v : Z) (ff : bool) (k : nat) :
  suite_steps (concat (replicate k (iteration finder runner v ff)))
  = concat (replicate k (iteration finder runner v ff)).
Proof.
  induction k as [|k IH]; [reflexivity|].
  change (replicate (S k) (iteration finder runner v ff))
    with (iteration finder runner v ff :: replicate k (iteration finder runner v ff)).
  rewrite concat_cons. unfold suite_steps in *.
  rewrite List.filter_app, IH. reflexivity.
Qed.

Lemma guarded_runs_single (args : Args) (fuel : nat) (finder : TestsFinder) :
  forever args = false ->
  exists post, no_suite_step post /\
    guarded_runs args fuel finder
    = (iteration finder (if findleaks args then TestRunner else TextTestRunner)
         (verbosity_of args) (failfast args) ++ post,
       Raise (SystemExit (Z.b2z (negb (wasSuccessful (nth_result args finder 0)))))).
Proof.
  intros Hmode. unfold guarded_runs. rewrite Hmode.
  match goal with |- context [try_finally ?b _] => set (body := b) end.
  destruct (try_finally_report body args) as [Hout (post & Hpost & Hev)].
  exists post. split; [exact Hpost|].
  destruct (try_finally body (coverage_report args)) as [log r].
  unfold outcome, events in *. cbn [fst snd] in *. subst log r. reflexivity.
Qed.

Lemma guarded_runs_forever (args : Args) (fuel : nat) (finder : TestsFinder) :
  forever args = true ->
  let loop := forever_loop fuel finder
                (if findleaks args then TestRunner else TextTestRunner)
                (verbosity_of args) (failfast args) 0 in
  exists post, no_suite_step post /\
    (outcome loop = Running -> post = []) /\
    guarded_runs args fuel finder = (events loop ++ post, outcome loop).
Proof.
  intros Hmode loop. unfold guarded_runs. rewrite Hmode. fold loop.
  destruct (coverage_report_val args) as [Hval Hq].
  destruct (coverage_report args) as [rlog rr].
  unfold outcome, events in *. cbn [fst snd] in *. subst rr.
  destruct loop as [log [a|e|]]; cbn [try_finally fst snd].
  - exists rlog. repeat split; [exact Hq|discriminate].
  - exists rlog. repeat split; [exact Hq|discriminate].
  - exists []. rewrite app_nil_r. repeat split. constructor.
Qed.

(** C1, for the executions that run tests.  Whenever [runtests] executes a
    test run, the exit status follows the result of the last run it made.
    In a single pass the process exits with status 0 when the run is
    successful and with status 1 when it is not, so with status 1 exactly
    when the result of running the loaded suite reports unsuccessful.  In
    forever mode the process exits only after an unsuccessful run, with
    status 1, and goes on after a successful one.  (Nothing is said of the
    executions that run no test: status 1 does not need a failing test.) *)
Theorem exit_status_follows_result (args : Args) (fuel : nat) (r : RunResult) :
  last (run_results (events (runtests args fuel))) = Some r ->
  (forever args = false ->
     exit_status (outcome (runtests args fuel))
     = Some (if wasSuccessful r then 0 else 1)%Z)
  /\ (forever args = true ->
     exit_status (outcome (runtests args fuel))
     = if wasSuccessful r then None else Some 1%Z).
Proof.
  intros Hlast.
  destruct (runtests_stages args fuel)
    as [[Hnone _]|(pre & finder & _ & _ & _ & Hpre & Heq)].
  { unfold run_results in Hlast. rewrite run_results_none in Hlast by exact Hnone.
    discriminate Hlast. }
  rewrite Heq in *. unfold run_results in Hlast.
  unfold outcome, events in *. cbn [fst snd] in *.
  rewrite run_results_skip in Hlast by exact Hpre.
  split; intros Hmode.
  - destruct (guarded_runs_single args fuel finder Hmode) as (post & Hpost & Hg).
    rewrite Hg in *. cbn [fst snd] in *.
    rewrite run_results_quiet_tail in Hlast by exact Hpost.
    simpl in Hlast. injection Hlast as <-. unfold nth_result. simpl.
    destruct (wasSuccessful _); reflexivity.
  - destruct (guarded_runs_forever args fuel finder Hmode) as (post & Hpost & _ & Hg).
    rewrite Hg in *. unfold outcome, events in *. cbn [fst snd] in *.
    rewrite run_results_quiet_tail in Hlast by exact Hpost.
    destruct (forever_loop_last finder
                (if findleaks args then TestRunner else TextTestRunner)
                (verbosity_of args) (failfast args) fuel 0)
      as [[Hrun Hall]|[Hexit (r' & Hlast' & Hr')]];
      unfold outcome, events in *.
    + rewrite Hrun. simpl.
      apply last_Some_elem_of in Hlast.
      rewrite Forall_forall in Hall. rewrite (Hall r Hlast). reflexivity.
    + rewrite Hexit. simpl. rewrite Hlast in Hlast'. injection Hlast' as ->.
      rewrite Hr'. reflexivity.
Qed.

(** C6, past the check on the coverage package.  If the configured tests
    directory does not exist and the check on the coverage package has not
    already stopped the script, [runtests] prints a message and the usage
    help and returns early: no suite is built or run, and the process ends
    with exit status zero. *)
Theorem missing_testsdir_returns (args : Args) (fuel : nat) :
  coverage_missing args = false ->
  os_path_isdir (os_path_abspath (testsdir args)) = false ->
  runtests args fuel
  = ([Stdout ("Tests directory is not found: " +:+
              os_path_abspath (testsdir args) +:+ nl);
      PrintHelp], Val tt)
  /\ suite_steps (events (runtests args fuel)) = []
  /\ exit_status (outcome (runtests args fuel)) = Some 0%Z.
Proof.
  intros Hcov Hdir. rewrite runtests_eq, Hcov, Hdir. repeat split.
Qed.

(** The rounds of the forever loop, in terms of [load_tests]: one suite
    built and run per iteration while the runs are successful, and exit
    status 1 after the first run that is not. *)
Lemma forever_rounds (args : Args) (finder : TestsFinder) :
  forever args = true ->
  coverage_missing args = false ->
  os_path_isdir (os_path_abspath (testsdir args)) = true ->
  outcome (runtests_finder args) = Val finder ->
  let runner := if findleaks args then TestRunner else TextTestRunner in
  let round := iteration finder runner (verbosity_of args) (failfast args) in
  (forall fuel,
     (forall i, i < fuel -> wasSuccessful (nth_result args finder i) = true) ->
     outcome (runtests args fuel) = Running /\
     exit_status (outcome (runtests args fuel)) = None /\
     suite_steps (events (runtests args fuel)) = concat (replicate fuel round))
  /\ (forall j fuel,
       j < fuel ->
       (forall i, i < j -> wasSuccessful (nth_result args finder i) = true) ->
       wasSuccessful (nth_result args finder j) = false ->
       exit_status (outcome (runtests args fuel)) = Some 1%Z /\
       suite_steps (events (runtests args fuel)) = concat (replicate (S j) round)).
Proof.
  intros Hmode Hcov Hdir Hfinder runner round.
  assert (Hreach : forall fuel, exists pre, no_suite_step pre /\
    runtests args fuel
    = (pre ++ events (guarded_runs args fuel finder),
       outcome (guarded_runs args fuel finder))).
  { intros fuel.
    destruct (runtests_stages args fuel)
      as [[_ Hstop]|(pre & finder' & _ & _ & Hfinder' & Hpre & Heq)].
    - destruct (Hstop finder Hfinder) as [Hc|Hd]; congruence.
    - rewrite Hfinder in Hfinder'. injection Hfinder' as <-.
      exists pre. split; assumption. }
  split.
  - intros fuel Hok. destruct (Hreach fuel) as (pre & Hpre & Heq).
    pose proof (forever_loop_all_ok finder runner _ _ fuel 0 Hok) as Hloop.
    pose proof (guarded_runs_forever args fuel finder Hmode) as Hg.
    cbv zeta in Hg. fold runner in Hg. rewrite Hloop in Hg.
    destruct Hg as (post & _ & Hnil & Hg).
    unfold outcome, events in *. cbn [fst snd] in *.
    rewrite (Hnil eq_refl), app_nil_r in Hg.
    rewrite Heq, Hg. cbn [fst snd].
    rewrite suite_steps_skip by exact Hpre.
    repeat split. apply suite_steps_iterations.
  - intros j fuel Hlt Hok Hfail. destruct (Hreach fuel) as (pre & Hpre & Heq).
    pose proof (forever_loop_fails finder runner _ _ j fuel 0 Hlt Hok Hfail) as Hloop.
    pose proof (guarded_runs_forever args fuel finder Hmode) as Hg.
    cbv zeta in Hg. fold runner in Hg. rewrite Hloop in Hg.
    destruct Hg as (post & Hpost & _ & Hg).
    unfold outcome, events in *. cbn [fst snd] in *.
    rewrite Heq, Hg. cbn [fst snd].
    split; [reflexivity|].
    rewrite suite_steps_skip by exact Hpre.
    rewrite suite_steps_quiet_tail by exact Hpost.
    apply suite_steps_iterations.
Qed.

End Runs.

(** [--coverage] without the coverage package: the process exits with
    status 1 and no test was run, let alone failed. *)
Lemma exit_status_one_without_run :
  @runtests Sample.no_coverage (Sample.with_coverage Sample.args) 0
  = ([Stdout coverage_missing_message], Raise (SystemExit 1))
  /\ exit_status (outcome (@runtests Sample.no_coverage
                            (Sample.with_coverage Sample.args) 0)) = Some 1%Z
  /\ @run_results Sample.no_coverage
       (events (@runtests Sample.no_coverage (Sample.with_coverage Sample.args) 0)) = [].
Proof. repeat split. Qed.

Lemma exit_status_follows_result_witness :
  last (@run_results Sample.first_run_fails
          (events (@runtests Sample.first_run_fails Sample.args 0)))
  = Some {| wasSuccessful := false |}
  /\ exit_status (outcome (@runtests Sample.first_run_fails Sample.args 0)) = Some 1%Z.
Proof.
  assert (Hlast : last (@run_results Sample.first_run_fails
            (events (@runtests Sample.first_run_fails Sample.args 0)))
          = Some {| wasSuccessful := false |}).
  { vm_compute. reflexivity. }
  split; [exact Hlast|].
  destruct (@exit_status_follows_result Sample.first_run_fails Sample.args 0 _ Hlast)
    as [Hsingle _].
  exact (Hsingle eq_refl).
Defined.

(** The tests directory is missing and [--coverage] is given without the
    coverage package: exit status 1, and no usage help. *)
Lemma missing_testsdir_exit_one :
  @os_path_isdir Sample.no_coverage_no_dir
    (@os_path_abspath Sample.no_coverage_no_dir
       (testsdir (Sample.with_coverage Sample.args))) = false
  /\ exit_status (outcome (@runtests Sample.no_coverage_no_dir
                            (Sample.with_coverage Sample.args) 0)) = Some 1%Z
  /\ ~ In PrintHelp (events (@runtests Sample.no_coverage_no_dir
                               (Sample.with_coverage Sample.args) 0)).
Proof.
  split; [reflexivity|]. split; [reflexivity|].
  simpl. intros [Heq|[]]. discriminate Heq.
Qed.

Lemma missing_testsdir_returns_witness :
  (@coverage_missing Sample.no_dir Sample.args = false
   /\ @os_path_isdir Sample.no_dir
        (@os_path_abspath Sample.no_dir (testsdir Sample.args)) = false)
  /\ @runtests Sample.no_dir Sample.args 0
     = ([Stdout ("Tests directory is not found: /repo/tests" +:+ nl); PrintHelp], Val tt).
Proof.
  split; [split; reflexivity|].
  destruct (@missing_testsdir_returns Sample.no_dir Sample.args 0 eq_refl eq_refl)
    as (Hrun & _ & _).
  exact Hrun.
Defined.

(** ** Leak tracking *)

Section LeakProperties.
Context {Base : Type} `{TextTestResult Base}.

Lemma run_test_success (st : TestResult * GC) (e : Execution) :
  exec_outcome e = Success ->
  let st' := run_test st e in
  leaks (fst st')
  = leaks (fst st) ++
    match uncollected_after st e with
    | [] => []
    | objs => [(getDescription (base (fst st')) (exec_test e), objs)]
    end
  /\ gc_garbage (snd st') = []
  /\ gc_unreached (snd st') = []
  /\ gc_next (snd st') = gc_next (snd st) + exec_left e.
Proof.
  intros Hok. destruct st as [self g]. unfold run_test, uncollected_after, left_by.
  rewrite Hok. unfold startTest, addSuccess. simpl.
  rewrite (app_assoc (gc_garbage g)).
  destruct ((gc_garbage g ++ gc_unreached g) ++ seq (gc_next g) (exec_left e))
    eqn:Hobjs; simpl; rewrite ?Hobjs, ?app_nil_r; auto.
Qed.

Lemma run_test_other (st : TestResult * GC) (e : Execution) :
  exec_outcome e <> Success ->
  let st' := run_test st e in
  leaks (fst st') = leaks (fst st)
  /\ gc_garbage (snd st') = gc_garbage (snd st) ++ gc_unreached (snd st)
  /\ gc_unreached (snd st') = left_by (snd st) e
  /\ gc_next (snd st') = gc_next (snd st) + exec_left e.
Proof.
  intros Hno. destruct st as [self g]. unfold run_test, left_by.
  destruct (exec_outcome e); try contradiction; simpl; auto.
Qed.

(** Whatever its outcome, a test adds the objects it left to those of the
    process and moves no other. *)
Lemma tracked_run_test (st : TestResult * GC) (e : Execution) :
  tracked (run_test st e) = tracked st ++ left_by (snd st) e
  /\ gc_next (snd (run_test st e)) = gc_next (snd st) + exec_left e.
Proof.
  destruct (decide (exec_outcome e = Success)) as [Hok|Hno].
  - destruct (run_test_success st e Hok) as (Hleaks & Hg & Hu & Hn).
    cbv zeta in *. split; [|exact Hn].
    unfold tracked. rewrite Hleaks, Hg, Hu. unfold uncollected_after.
    rewrite fmap_app, concat_app, <- !app_assoc. f_equal.
    destruct (gc_garbage (snd st) ++ gc_unreached (snd st) ++ left_by (snd st) e)
      as [|obj objs] eqn:Hobjs; simpl; rewrite ?app_nil_r; reflexivity.
  - destruct (run_test_other st e Hno) as (Hleaks & Hg & Hu & Hn).
    cbv zeta in *. split; [|exact Hn].
    unfold tracked. rewrite Hleaks, Hg, Hu, <- !app_assoc. reflexivity.
Qed.

Lemma run_test_consistent (st : TestResult * GC) (e : Execution) :
  consistent st -> consistent (run_test st e).
Proof.
  intros [Hnd Hlt]. destruct (tracked_run_test st e) as [Ht Hn].
  unfold consistent. rewrite Ht, Hn. split.
  - apply NoDup_app. split; [exact Hnd|]. split; [|apply NoDup_seq].
    intros obj Hin Hnew. rewrite Forall_forall in Hlt. specialize (Hlt obj Hin).
    unfold left_by in Hnew. apply elem_of_seq in Hnew. lia.
  - apply Forall_app. split.
    + eapply Forall_impl; [exact Hlt|]. intros obj Hobj. simpl in Hobj. lia.
    + apply Forall_forall. intros obj Hnew.
      unfold left_by in Hnew. apply elem_of_seq in Hnew. lia.
Qed.

Lemma run_tests_consistent (es : list Execution) (st : TestResult * GC) :
  consistent st -> consistent (run_tests st es).
Proof.
  revert st. induction es as [|e es IH]; intros st Hst; [exact Hst|].
  simpl. apply IH, run_test_consistent, Hst.
Qed.

(** Leak entries are only ever appended. *)
Lemma run_test_leaks_grow (st : TestResult * GC) (e : Execution) :
  exists later, leaks (fst (run_test st e)) = leaks (fst st) ++ later.
Proof.
  destruct (decide (exec_outcome e = Success)) as [Hok|Hno].
  - destruct (run_test_success st e Hok) as (Hleaks & _). eexists. exact Hleaks.
  - destruct (run_test_other st e Hno) as (Hleaks & _). exists [].
    cbv zeta in Hleaks. rewrite Hleaks, app_nil_r. reflexivity.
Qed.

Lemma run_tests_leaks_grow (es : list Execution) (st : TestResult * GC) :
  exists later, leaks (fst (run_tests st es)) = leaks (fst st) ++ later.
Proof.
  revert st. induction es as [|e es IH]; intros st.
  - exists []. simpl. rewrite app_nil_r. reflexivity.
  - simpl. destruct (IH (run_test st e)) as [later Hlater].
    destruct (run_test_leaks_grow st e) as [now Hnow].
    exists (now ++ later). rewrite Hlater, Hnow, app_assoc. reflexivity.
Qed.

Lemma consistent_leaks_NoDup (st : TestResult (Base := Base) * GC) :
  consistent st -> NoDup (concat (leaks (fst st)).*2).
Proof. intros [Hnd _]. unfold tracked in Hnd. apply NoDup_app in Hnd. tauto. Qed.

(** C7, for successful tests.  With leak detection enabled, after each
    successful test the garbage collector is inspected and the objects it
    could not reclaim, if there are any, are recorded as one leak entry, the
    description of the test with these objects.  After a test that ends in
    any other way nothing is recorded: the objects it left stay with the
    collector. *)
Theorem leaks_recorded_on_success (st : TestResult * GC) (e : Execution) :
  let st' := run_test st e in
  (exec_outcome e = Success ->
     leaks (fst st')
     = leaks (fst st) ++
       match uncollected_after st e with
       | [] => []
       | objs => [(getDescription (base (fst st')) (exec_test e), objs)]
       end)
  /\ (exec_outcome e <> Success ->
      leaks (fst st') = leaks (fst st) /\
      gc_garbage (snd st') ++ gc_unreached (snd st') = uncollected_after st e).
Proof.
  cbv zeta. split.
  - intros Hok. apply (run_test_success st e Hok).
  - intros Hno. destruct (run_test_other st e Hno) as (Hleaks & Hg & Hu & _).
    cbv zeta in *. split; [exact Hleaks|].
    rewrite Hg, Hu. unfold uncollected_after. rewrite <- app_assoc. reflexivity.
Qed.

(** C10.  With leak detection enabled, when a successful test is over
    [gc.garbage] is empty, the objects found in it having been recorded.  So
    in the leak entries of a run no object is recorded twice, and no entry
    recorded after that test holds an object recorded up to it. *)
Theorem leak_entries_disjoint (b : Base) (g : GC) (pre post : list Execution)
    (e : Execution) :
  consistent (TestResult_init b, g) ->
  exec_outcome e = Success ->
  let st := run_tests (TestResult_init b, g) pre in
  let st' := run_test st e in
  let final := run_tests st' post in
  gc_garbage (snd st') = []
  /\ leaks (fst st')
     = leaks (fst st) ++
       match uncollected_after st e with
       | [] => []
       | objs => [(getDescription (base (fst st')) (exec_test e), objs)]
       end
  /\ NoDup (concat (leaks (fst final)).*2)
  /\ exists later,
       leaks (fst final) = leaks (fst st') ++ later /\
       forall obj, obj ∈ concat (leaks (fst st')).*2 -> obj ∉ concat later.*2.
Proof.
  intros Hstart Hok st st' final.
  destruct (run_test_success st e Hok) as (Hleaks & Hg & _).
  split; [exact Hg|]. split; [exact Hleaks|].
  assert (Hfinal : consistent final).
  { apply run_tests_consistent, run_test_consistent, run_tests_consistent, Hstart. }
  apply consistent_leaks_NoDup in Hfinal.
  split; [exact Hfinal|].
  destruct (run_tests_leaks_grow post st') as [later Hlater].
  exists later. split; [exact Hlater|].
  fold final in Hlater. rewrite Hlater, fmap_app, concat_app in Hfinal.
  apply NoDup_app in Hfinal. destruct Hfinal as (_ & Hdisj & _). exact Hdisj.
Qed.

End LeakProperties.

(** A failing test leaves an uncollectable object behind: no leak entry is
    recorded for it, and the object is later recorded under the next
    successful test. *)
Lemma failing_test_not_recorded :
  exec_outcome Sample.failing_leaky = Failure
  /\ uncollected_after Sample.fresh Sample.failing_leaky = [0]
  /\ leaks (fst (run_test Sample.fresh Sample.failing_leaky)) = []
  /\ leaks (fst (run_tests Sample.fresh [Sample.failing_leaky; Sample.passing_clean]))
     = [("test_a.ATest.test_y", [0])].
Proof. repeat split. Qed.

Lemma leaks_recorded_on_success_witness :
  exec_outcome Sample.passing_leaky = Success
  /\ leaks (fst (run_test Sample.fresh Sample.passing_leaky))
     = [("test_a.ATest.test_z", [0; 1])].
Proof.
  split; [reflexivity|].
  destruct (leaks_recorded_on_success Sample.fresh Sample.passing_leaky) as [Hrec _].
  rewrite (Hrec eq_refl). reflexivity.
Defined.

Lemma leak_entries_disjoint_witness :
  (consistent Sample.fresh /\ exec_outcome Sample.passing_leaky = Success)
  /\ NoDup (concat (leaks (fst (run_tests Sample.fresh
              [Sample.failing_leaky; Sample.passing_leaky;
               Sample.passing_leaky; Sample.passing_clean]))).*2).
Proof.
  assert (Hfresh : consistent Sample.fresh).
  { split; [apply NoDup_nil_2|apply List.Forall_nil]. }
  split; [split; [exact Hfresh|reflexivity]|].
  destruct (leak_entries_disjoint [] gc_start [Sample.failing_leaky]
              [Sample.passing_leaky; Sample.passing_clean] Sample.passing_leaky
              Hfresh eq_refl) as (_ & _ & Hnd & _).
  exact Hnd.
Defined.

(** * More properties of the script *)

(** ** Strings *)

Lemma append_cons (c : ascii) (a b : string) : String c a +:+ b = String c (a +:+ b).
Proof. reflexivity. Qed.

Lemma append_nil_l (b : string) : "" +:+ b = b.
Proof. reflexivity. Qed.

Ltac str_simpl :=
  repeat (rewrite append_cons in * || rewrite append_nil_l in * ); simpl in *.

Lemma append_nil_r (s : string) : s +:+ "" = s.
Proof. induction s as [|c s IH]; str_simpl; congruence. Qed.

Lemma append_assoc (a b c : string) : (a +:+ b) +:+ c = a +:+ b +:+ c.
Proof. induction a as [|x a IH]; str_simpl; congruence. Qed.

Lemma length_append (a b : string) :
  String.length (a +:+ b) = String.length a + String.length b.
Proof. induction a as [|x a IH]; str_simpl; congruence. Qed.

Lemma startswith_spec (s p : string) :
  startswith s p = true <-> exists r, s = p +:+ r.
Proof.
  revert s. induction p as [|c p IH]; intros s.
  - split; [intros _; exists s; reflexivity|intros _; destruct s; reflexivity].
  - destruct s as [|d s]; simpl.
    + split; [discriminate|intros [r Hr]; discriminate Hr].
    + destruct (decide (c = d)) as [->|Hne].
      * rewrite IH. split; intros [r Hr]; exists r; str_simpl; congruence.
      * split; [discriminate|intros [r Hr]; str_simpl; congruence].
Qed.

Lemma str_contains_spec (p s : string) :
  str_contains p s = true <-> exists a b, s = a +:+ p +:+ b.
Proof.
  induction s as [|c s IH].
  - cbn [str_contains]. rewrite orb_false_r, startswith_spec. split.
    + intros [r Hr]. exists "", r. exact Hr.
    + intros (a & b & Hab). destruct a; [exists b; exact Hab|discriminate Hab].
  - cbn [str_contains]. rewrite orb_true_iff, startswith_spec, IH. split.
    + intros [[r Hr]|(a & b & Hab)].
      * exists "", r. exact Hr.
      * exists (String c a), b. str_simpl. congruence.
    + intros (a & b & Hab). destruct a as [|x a].
      * left. exists b. exact Hab.
      * right. exists a, b. str_simpl. congruence.
Qed.

Lemma substring_all (s : string) : String.substring 0 (String.length s) s = s.
Proof. induction s as [|c s IH]; simpl; congruence. Qed.

Lemma substring_skip (q s : string) (m : nat) :
  String.substring (String.length q) m (q +:+ s) = String.substring 0 m s.
Proof. induction q as [|c q IH]; str_simpl; [reflexivity|exact IH]. Qed.

Lemma substring_prefix (q r : string) :
  String.substring 0 (String.length q) (q +:+ r) = q.
Proof.
  induction q as [|c q IH]; str_simpl.
  - destruct r; reflexivity.
  - congruence.
Qed.

Lemma substring_split (s : string) (i : nat) :
  i <= String.length s ->
  String.substring 0 i s +:+ String.substring i (String.length s - i) s = s.
Proof.
  revert i. induction s as [|c s IH]; intros i Hi; simpl in *.
  - destruct i; [reflexivity|lia].
  - destruct i as [|i]; simpl.
    + rewrite substring_all. reflexivity.
    + rewrite append_cons, IH by lia. reflexivity.
Qed.

Lemma endswith_spec (s p : string) :
  endswith s p = true <-> exists q, s = q +:+ p.
Proof.
  unfold endswith. rewrite andb_true_iff, !bool_decide_eq_true. split.
  - remember (String.length p) as k eqn:Hk. clear Hk.
    intros [Hle Hsub]. exists (String.substring 0 (String.length s - k) s).
    rewrite <- Hsub.
    replace k with (String.length s - (String.length s - k)) at 3 by lia.
    symmetry. apply substring_split. lia.
  - intros [q ->]. rewrite length_append. split; [lia|].
    replace (String.length q + String.length p - String.length p)
      with (String.length q) by lia.
    rewrite substring_skip. apply substring_all.
Qed.

(** ** The listing of the tests directory *)

Lemma isfile_in_In (entries : list (string * FsNode)) (name : string) :
  isfile_in entries name = true -> In (name, FsFile) entries.
Proof.
  induction entries as [|[n child] rest IH]; simpl; [discriminate|].
  destruct child; destruct (decide (n = name)) as [->|Hne]; auto; discriminate.
Qed.

Lemma startswith_append (p r : string) : startswith (p +:+ r) p = true.
Proof. apply startswith_spec. exists r. reflexivity. Qed.

Lemma startswith_shorter (s p q : string) :
  startswith s (p +:+ q) = true -> startswith s p = true.
Proof.
  rewrite !startswith_spec. intros [r ->]. exists (q +:+ r). apply append_assoc.
Qed.

(** X1.  Whatever the tree, every entry of the listing is the path of a
    plain file of the tree, and that file is either the [__init__.py] of a
    directory or a file that passes the test on names: it is not
    [__init__.py], its name ends with the suffix, and does not start with a
    dot or an underscore. *)
Theorem list_dir_lists_module_files (suffix prefix dir : string)
    (entries : list (string * FsNode)) :
  Forall (fun listed =>
    exists name,
      In (name, snd listed) (fs_files dir (FsDir entries)) /\
      (name = "__init__.py" \/
       (name <> "__init__.py" /\ (exists stem, name = stem +:+ suffix) /\
        startswith name "." = false /\ startswith name "_" = false)))
    (list_dir suffix prefix dir entries).
Proof.
  unfold list_dir. revert prefix dir.
  induction (FsDir entries) as [|es IH] using FsNode_tree_ind; intros prefix dir.
  - constructor.
  - cbn [list_dir_node fs_files]. apply Forall_app. split.
    + destruct (isfile_in es "__init__.py") eqn:Hinit; [|constructor].
      repeat constructor. exists "__init__.py". split; [|left; reflexivity].
      apply in_flat_map. exists ("__init__.py", FsFile).
      split; [apply isfile_in_In, Hinit|left; reflexivity].
    + apply List.Forall_forall. intros listed Hin.
      apply in_flat_map in Hin. destruct Hin as ([name child] & Hentry & Hin).
      rewrite List.Forall_forall in IH. specialize (IH _ Hentry). simpl in IH.
      destruct child as [|sub].
      * destruct (is_candidate suffix name) eqn:Hcand; [|destruct Hin].
        destruct Hin as [<-|[]]. exists name. split.
        -- apply in_flat_map. exists (name, FsFile). split; [exact Hentry|left; reflexivity].
        -- right. unfold is_candidate in Hcand.
           rewrite !andb_true_iff, !negb_true_iff, orb_false_iff,
             bool_decide_eq_false, endswith_spec in Hcand. tauto.
      * match type of Hin with In _ (list_dir_node _ ?pre ?d _) =>
          specialize (IH pre d) end.
        rewrite List.Forall_forall in IH. destruct (IH _ Hin) as (n & Hn & Hkind).
        exists n. split; [|exact Hkind].
        apply in_flat_map. exists (name, FsDir sub). split; [exact Hentry|exact Hn].
Qed.

(** X2.  The listing misses no module file: every plain file of the tree
    that passes the test on names is in the listing, at whatever depth it
    lies and whether or not the directories above it are packages. *)
Theorem list_dir_misses_no_candidate (suffix prefix dir : string)
    (entries : list (string * FsNode)) :
  Forall (fun file =>
    is_candidate suffix (fst file) = true ->
    exists modname, In (modname, snd file) (list_dir suffix prefix dir entries))
    (fs_files dir (FsDir entries)).
Proof.
  unfold list_dir. revert prefix dir.
  induction (FsDir entries) as [|es IH] using FsNode_tree_ind; intros prefix dir.
  - constructor.
  - cbn [list_dir_node fs_files]. apply List.Forall_forall. intros [fname fpath] Hin Hcand.
    apply in_flat_map in Hin. destruct Hin as ([name child] & Hentry & Hin).
    rewrite List.Forall_forall in IH. specialize (IH _ Hentry). simpl in IH, Hcand.
    set (prefix' := if isfile_in es "__init__.py"
                    then prefix +:+ os_path_split_tail dir +:+ "." else prefix).
    destruct child as [|sub].
    + destruct Hin as [Heq|[]]. injection Heq as <- <-.
      exists (prefix' +:+ slice_to_minus3 name). apply in_or_app. right.
      apply in_flat_map. exists (name, FsFile). split; [exact Hentry|].
      simpl. rewrite Hcand. left. reflexivity.
    + specialize (IH (prefix' +:+ name +:+ ".") (os_path_join dir name)).
      rewrite List.Forall_forall in IH.
      destruct (IH _ Hin Hcand) as [modname Hmod]. simpl in Hmod.
      exists modname. apply in_or_app. right.
      apply in_flat_map. exists (name, FsDir sub). split; [exact Hentry|exact Hmod].
Qed.

Lemma list_dir_prefix (suffix prefix dir : string)
    (entries : list (string * FsNode)) :
  Forall (fun listed => startswith (fst listed) prefix = true)
         (list_dir suffix prefix dir entries).
Proof.
  unfold list_dir. revert prefix dir.
  induction (FsDir entries) as [|es IH] using FsNode_tree_ind; intros prefix dir.
  - constructor.
  - cbn [list_dir_node].
    set (prefix' := if isfile_in es "__init__.py"
                    then prefix +:+ os_path_split_tail dir +:+ "." else prefix).
    assert (Hprefix : forall s, startswith s prefix' = true -> startswith s prefix = true).
    { subst prefix'. destruct (isfile_in es "__init__.py"); [|auto].
      intros s. apply startswith_shorter. }
    apply Forall_app. split.
    + destruct (isfile_in es "__init__.py"); repeat constructor.
      apply startswith_append.
    + apply List.Forall_forall. intros listed Hin.
      apply in_flat_map in Hin. destruct Hin as ([name child] & Hentry & Hin).
      rewrite List.Forall_forall in IH. specialize (IH _ Hentry). simpl in IH.
      apply Hprefix. destruct child as [|sub].
      * destruct (is_candidate suffix name); [|destruct Hin].
        destruct Hin as [<-|[]]. apply startswith_append.
      * specialize (IH (prefix' +:+ name +:+ ".") (os_path_join dir name)).
        rewrite List.Forall_forall in IH.
        eapply startswith_shorter. apply (IH _ Hin).
Qed.

(** X3.  Every module name of a listing starts with the prefix the listing
    was asked for. *)
Theorem list_dir_names_carry_prefix (suffix prefix dir : string)
    (entries : list (string * FsNode)) :
  Forall (fun listed => exists rest, fst listed = prefix +:+ rest)
         (list_dir suffix prefix dir entries).
Proof.
  eapply Forall_impl; [apply list_dir_prefix|].
  intros listed Hstart. apply startswith_spec. exact Hstart.
Qed.

(** X4.  In a directory that holds plain files only and is no package, the
    listing is the files that pass the test on names, in the order of the
    directory, each under the module name made of the prefix and the file
    name less its last three characters. *)
Theorem list_dir_flat (suffix prefix dir : string) (entries : list (string * FsNode)) :
  plain_files entries ->
  isfile_in entries "__init__.py" = false ->
  list_dir suffix prefix dir entries
  = map (fun name => (prefix +:+ slice_to_minus3 name, os_path_join dir name))
        (List.filter (is_candidate suffix) (map fst entries)).
Proof.
  intros Hplain Hinit. unfold list_dir. cbn [list_dir_node]. rewrite Hinit.
  cbn [app]. clear Hinit.
  induction Hplain as [|[name child] rest Hfile _ IH]; [reflexivity|].
  simpl in Hfile. subst child. cbn [flat_map map List.filter fst].
  rewrite IH. destruct (is_candidate suffix name); reflexivity.
Qed.

Lemma list_dir_flat_witness :
  (plain_files Sample.tree /\ isfile_in Sample.tree "__init__.py" = false)
  /\ list_dir ".py" "" "tests" Sample.tree
     = [("test_a", "tests/test_a.py"); ("test_b", "tests/test_b.py")].
Proof.
  assert (Hplain : plain_files Sample.tree) by (repeat constructor).
  split; [split; [exact Hplain|reflexivity]|].
  rewrite (list_dir_flat ".py" "" "tests" Sample.tree Hplain eq_refl).
  vm_compute. reflexivity.
Defined.

(** X5.  With a suffix of three characters, as the default ['.py'], the
    module name given to a file that passes the test on names is the file
    name without its suffix: put back, the suffix gives the file name. *)
Theorem module_name_round_trip (suffix name : string) :
  String.length suffix = 3 ->
  is_candidate suffix name = true ->
  slice_to_minus3 name +:+ suffix = name.
Proof.
  intros Hlen Hcand. unfold is_candidate in Hcand.
  rewrite !andb_true_iff, endswith_spec in Hcand.
  destruct Hcand as [[_ [stem ->]] _].
  unfold slice_to_minus3. rewrite length_append, Hlen.
  replace (String.length stem + 3 - 3) with (String.length stem) by lia.
  rewrite substring_prefix. reflexivity.
Qed.

Lemma module_name_round_trip_witness :
  (String.length ".py" = 3 /\ is_candidate ".py" "test_a.py" = true)
  /\ slice_to_minus3 "test_a.py" +:+ ".py" = "test_a.py".
Proof.
  split; [split; reflexivity|].
  exact (module_name_round_trip ".py" "test_a.py" eq_refl eq_refl).
Defined.

(** X6.  A directory that is a package comes first in its listing, under the
    prefix followed by the last component of its path, with its
    [__init__.py] as source file; every other module of the listing has
    that name and a dot in front of its own. *)
Theorem list_dir_package (suffix prefix dir : string) (entries : list (string * FsNode)) :
  isfile_in entries "__init__.py" = true ->
  exists rest,
    list_dir suffix prefix dir entries
    = (prefix +:+ os_path_split_tail dir, os_path_join dir "__init__.py") :: rest
    /\ Forall (fun listed =>
          startswith (fst listed) (prefix +:+ os_path_split_tail dir +:+ ".") = true)
        rest.
Proof.
  intros Hinit. unfold list_dir. cbn [list_dir_node]. rewrite Hinit.
  eexists. split; [reflexivity|].
  apply List.Forall_forall. intros listed Hin.
  apply in_flat_map in Hin. destruct Hin as ([name child] & Hentry & Hin).
  destruct child as [|sub].
  - destruct (is_candidate suffix name); [|destruct Hin].
    destruct Hin as [<-|[]]. simpl. rewrite <- append_assoc. apply startswith_append.
  - pose proof (list_dir_prefix suffix
        ((prefix +:+ os_path_split_tail dir +:+ ".") +:+ name +:+ ".")
        (os_path_join dir name) sub) as Hsub.
    unfold list_dir in Hsub. rewrite List.Forall_forall in Hsub.
    eapply startswith_shorter. apply (Hsub _ Hin).
Qed.

Lemma list_dir_package_witness :
  isfile_in Sample.package_tree "__init__.py" = true
  /\ list_dir ".py" "" "tests" Sample.package_tree
     = [("tests", "tests/__init__.py"); ("tests.test_c", "tests/test_c.py");
        ("tests.sub.sub", "tests/sub/__init__.py");
        ("tests.sub.sub.test_d", "tests/sub/test_d.py")].
Proof.
  split; [reflexivity|].
  destruct (list_dir_package ".py" "" "tests" Sample.package_tree eq_refl)
    as (rest & Heq & _).
  rewrite Heq. vm_compute in Heq. injection Heq as <-. reflexivity.
Defined.

Lemma startswith_nil (s : string) : startswith s "" = true.
Proof. destruct s; reflexivity. Qed.

Lemma no_slash_cons (c : ascii) (s : string) :
  str_contains "/" (String c s) = false ->
  c <> "/"%char /\ str_contains "/" s = false.
Proof.
  cbn [str_contains]. rewrite orb_false_iff. intros [Hhead Htail].
  split; [|exact Htail]. intros ->. simpl in Hhead.
  rewrite startswith_nil in Hhead. discriminate Hhead.
Qed.

Lemma split_tail_no_slash (acc b : string) :
  str_contains "/" b = false -> split_tail_from acc b = acc +:+ b.
Proof.
  revert acc. induction b as [|c b IH]; intros acc Hb; simpl.
  - symmetry. apply append_nil_r.
  - apply no_slash_cons in Hb. destruct Hb as [Hc Hb].
    destruct (decide (c = "/"%char)); [contradiction|].
    rewrite IH by exact Hb. rewrite append_assoc. reflexivity.
Qed.

Lemma split_tail_after_slash (q b acc : string) :
  str_contains "/" b = false -> split_tail_from acc (q +:+ "/" +:+ b) = b.
Proof.
  intros Hb. revert acc. induction q as [|c q IH]; intros acc.
  - change ("" +:+ "/" +:+ b) with (String "/" b). simpl.
    apply (split_tail_no_slash "" b Hb).
  - rewrite append_cons. simpl. destruct (decide (c = "/"%char)); apply IH.
Qed.

(** [os.path.split(os.path.join(dir, name))[-1]] is [name], for a name
    without a separator. *)
Lemma split_tail_join (dir name : string) :
  str_contains "/" name = false ->
  os_path_split_tail (os_path_join dir name) = name.
Proof.
  intros Hname. unfold os_path_split_tail, os_path_join.
  destruct (startswith name "/") eqn:Hstart.
  { destruct name as [|c name]; [discriminate Hstart|].
    cbn [str_contains] in Hname. rewrite Hstart in Hname. discriminate Hname. }
  destruct (decide (dir = "")) as [->|_].
  { apply (split_tail_no_slash "" name Hname). }
  destruct (endswith dir "/") eqn:Hend.
  - apply endswith_spec in Hend. destruct Hend as [q ->].
    rewrite append_assoc. apply split_tail_after_slash, Hname.
  - apply split_tail_after_slash, Hname.
Qed.

(** X7.  A package in a sub-directory has the name of the directory twice
    in its module name: the caller puts the directory name in the prefix,
    and the listing of the directory adds the last component of its path,
    which is that name again. *)
Theorem list_dir_subpackage (suffix prefix dir name : string)
    (entries sub : list (string * FsNode)) :
  In (name, FsDir sub) entries ->
  isfile_in sub "__init__.py" = true ->
  str_contains "/" name = false ->
  let prefix' := if isfile_in entries "__init__.py"
                 then prefix +:+ os_path_split_tail dir +:+ "." else prefix in
  In (prefix' +:+ name +:+ "." +:+ name,
      os_path_join (os_path_join dir name) "__init__.py")
     (list_dir suffix prefix dir entries).
Proof.
  intros Hentry Hinit Hname prefix'. unfold list_dir. cbn [list_dir_node].
  apply in_or_app. right. apply in_flat_map. exists (name, FsDir sub).
  split; [exact Hentry|]. cbn [list_dir_node]. rewrite Hinit.
  fold prefix'. left. rewrite split_tail_join by exact Hname.
  rewrite !append_assoc. reflexivity.
Qed.

Lemma list_dir_subpackage_witness :
  (In ("sub", FsDir [("__init__.py", FsFile); ("test_d.py", FsFile)]) Sample.package_tree
   /\ isfile_in [("__init__.py", FsFile); ("test_d.py", FsFile)] "__init__.py" = true
   /\ str_contains "/" "sub" = false)
  /\ In ("tests.sub.sub", "tests/sub/__init__.py")
        (list_dir ".py" "" "tests" Sample.package_tree).
Proof.
  assert (Hentry : In ("sub", FsDir [("__init__.py", FsFile); ("test_d.py", FsFile)])
                      Sample.package_tree).
  { simpl. auto. }
  split; [split; [exact Hentry|split; reflexivity]|].
  exact (list_dir_subpackage ".py" "" "tests" "sub" Sample.package_tree _
           Hentry eq_refl eq_refl).
Defined.

(** ** Loading the modules *)

Section Loading.
Context `{Runtime}.

Lemma loop_aborted (modname sourcefile : string) (rest : list (string * string))
    (mods : list (PyModule * string)) (e : PyExc) :
  import_of (modname, sourcefile) = Aborted e ->
  load_modules_loop ((modname, sourcefile) :: rest) mods = ([], Raise e).
Proof.
  unfold import_of. simpl.
  destruct (decide (modname = "runtests")); [discriminate|].
  destruct (load_module modname sourcefile) as [err|m]; [|discriminate].
  unfold propagates.
  destruct (is_SyntaxError err) eqn:Hs; simpl.
  - intros Heq. injection Heq as <-. reflexivity.
  - destruct (is_Exception err); simpl; [discriminate|].
    intros Heq. injection Heq as <-. reflexivity.
Qed.

(** The loop either goes through the whole listing, or stops at the first
    import that is raised further. *)
Lemma loop_outcome (listing : list (string * string)) (mods : list (PyModule * string)) :
  (Forall (fun entry => aborts entry = false) listing /\
   load_modules_loop listing mods = (skips_of listing, Val (mods ++ loaded_of listing)))
  \/ (exists pre entry rest e,
        listing = pre ++ entry :: rest /\
        Forall (fun entry => aborts entry = false) pre /\
        import_of entry = Aborted e /\
        load_modules_loop listing mods = (skips_of pre, Raise e)).
Proof.
  revert mods. induction listing as [|entry listing IH]; intros mods.
  - left. split; [constructor|]. simpl. rewrite app_nil_r. reflexivity.
  - destruct (aborts entry) eqn:Hentry.
    + right. unfold aborts in Hentry.
      destruct (import_of entry) as [|m|msg|e] eqn:Himport; try discriminate.
      exists [], entry, listing, e.
      split; [reflexivity|]. split; [constructor|]. split; [exact Himport|].
      destruct entry as [modname sourcefile]. apply loop_aborted, Himport.
    + assert (Hone : Forall (fun entry => aborts entry = false) [entry])
        by (repeat constructor; exact Hentry).
      pose proof (loop_no_abort [entry] listing mods Hone) as Hstep.
      change ([entry] ++ listing) with (entry :: listing) in Hstep.
      destruct (IH (mods ++ loaded_of [entry]))
        as [[Hall Hrun]|(pre & stop & rest & e & Hsplit & Hpre & Hstop & Hrun)].
      * left. split; [constructor; assumption|].
        rewrite Hstep, Hrun. simpl. unfold skips_of, loaded_of. simpl.
        rewrite !app_nil_r, <- app_assoc. reflexivity.
      * right. exists (entry :: pre), stop, rest, e.
        split; [rewrite Hsplit; reflexivity|].
        split; [constructor; assumption|]. split; [exact Hstop|].
        rewrite Hstep, Hrun. simpl. unfold skips_of. simpl.
        rewrite app_nil_r. reflexivity.
Qed.

Lemma loaded_of_sources (listing : list (string * string)) :
  (loaded_of listing).*2 `sublist_of` listing.*2.
Proof.
  induction listing as [|entry listing IH]; [constructor|].
  unfold loaded_of in *. simpl.
  destruct (import_of entry); simpl; try (apply sublist_cons, IH).
  apply sublist_skip, IH.
Qed.

Lemma loaded_of_origin (listing : list (string * string)) :
  Forall (fun loaded =>
    exists modname,
      In (modname, snd loaded) listing /\ modname <> "runtests" /\
      load_module modname (snd loaded) = inr (fst loaded))
    (loaded_of listing).
Proof.
  apply List.Forall_forall. intros [m src] Hin.
  unfold loaded_of in Hin. apply in_flat_map in Hin.
  destruct Hin as ([modname sourcefile] & Hentry & Hin).
  unfold import_of in Hin. simpl in Hin.
  destruct (decide (modname = "runtests")) as [|Hname]; [destruct Hin|].
  destruct (load_module modname sourcefile) as [e|m'] eqn:Hload.
  - destruct (propagates e); destruct Hin.
  - destruct Hin as [Heq|[]]. injection Heq as <- <-.
    exists modname. auto.
Qed.

Lemma skips_of_origin (listing : list (string * string)) :
  Forall (fun ev =>
    exists modname sourcefile e,
      In (modname, sourcefile) listing /\
      load_module modname sourcefile = inl e /\
      is_Exception e = true /\ is_SyntaxError e = false /\
      ev = Stderr ("Skipping '" +:+ modname +:+ "': " +:+ exc_str e))
    (skips_of listing).
Proof.
  apply List.Forall_forall. intros ev Hin.
  unfold skips_of in Hin. apply in_flat_map in Hin.
  destruct Hin as ([modname sourcefile] & Hentry & Hin).
  unfold import_of in Hin.
  destruct (decide (modname = "runtests")); [destruct Hin|].
  destruct (load_module modname sourcefile) as [e|m] eqn:Hload; [|destruct Hin].
  unfold propagates in Hin.
  destruct (is_SyntaxError e) eqn:Hs; [destruct Hin|].
  destruct (is_Exception e) eqn:He; [|destruct Hin].
  destruct Hin as [<-|[]]. exists modname, sourcefile, e. auto.
Qed.

Lemma skips_of_app (pre rest : list (string * string)) :
  skips_of (pre ++ rest) = skips_of pre ++ skips_of rest.
Proof. unfold skips_of. apply flat_map_app. Qed.

Lemma listing_accounts (listing : list (string * string)) :
  Forall (fun entry => aborts entry = false) listing ->
  length (loaded_of listing) + length (skips_of listing)
  + length (List.filter (fun entry => bool_decide (fst entry = "runtests")) listing)
  = length listing.
Proof.
  induction 1 as [|[modname sourcefile] listing Hentry _ IH]; [reflexivity|].
  unfold loaded_of, skips_of, aborts, import_of in *. simpl in *.
  destruct (decide (modname = "runtests")) as [Heq|Hne].
  - rewrite bool_decide_eq_true_2 by exact Heq. simpl. lia.
  - rewrite bool_decide_eq_false_2 by exact Hne.
    destruct (load_module modname sourcefile) as [e|m]; simpl.
    + destruct (propagates e); [discriminate|]. simpl. lia.
    + lia.
Qed.

(** X8.  When [load_modules] returns, the modules come in the order of the
    listing, each with the source file it was loaded from: every one is the
    result of importing an entry of the listing that is not the script
    itself.  Every entry is accounted for: loaded, reported as skipped, or
    left alone because it is named [runtests]. *)
Theorem load_modules_returns (basedir : string) (log : list Event)
    (loaded : list (PyModule * string)) :
  load_modules basedir = (log, Val loaded) ->
  let listing := list_dir ".py" "" basedir (os_tree basedir) in
  loaded.*2 `sublist_of` listing.*2
  /\ Forall (fun mod_src =>
       exists modname,
         In (modname, snd mod_src) listing /\ modname <> "runtests" /\
         load_module modname (snd mod_src) = inr (fst mod_src)) loaded
  /\ length loaded + length log
     + length (List.filter (fun entry => bool_decide (fst entry = "runtests")) listing)
     = length listing.
Proof.
  intros Hrun listing. unfold load_modules, load_modules_with in Hrun. fold listing in Hrun.
  destruct (loop_outcome listing [])
    as [[Hall Heq]|(pre & stop & rest & e & _ & _ & _ & Heq)];
    rewrite Heq in Hrun; [|discriminate Hrun].
  injection Hrun as <- <-. simpl.
  split; [apply loaded_of_sources|]. split; [apply loaded_of_origin|].
  apply listing_accounts, Hall.
Qed.

(** X9.  Whatever happens, [load_modules] writes nothing but skip reports on
    the standard error stream, each for a module of the listing whose import
    raised an exception deriving from [Exception] other than a
    [SyntaxError], with the name of the module and the text of the
    exception. *)
Theorem load_modules_reports (basedir : string) :
  Forall (fun ev =>
    exists modname sourcefile e,
      In (modname, sourcefile) (list_dir ".py" "" basedir (os_tree basedir)) /\
      load_module modname sourcefile = inl e /\
      is_Exception e = true /\ is_SyntaxError e = false /\
      ev = Stderr ("Skipping '" +:+ modname +:+ "': " +:+ exc_str e))
    (events (load_modules basedir)).
Proof.
  unfold load_modules, load_modules_with.
  set (listing := list_dir ".py" "" basedir (os_tree basedir)).
  destruct (loop_outcome listing [])
    as [[_ Heq]|(pre & stop & rest & e & Hsplit & _ & _ & Heq)]; rewrite Heq; simpl.
  - apply skips_of_origin.
  - pose proof (skips_of_origin listing) as Hall.
    rewrite Hsplit, skips_of_app in Hall. apply Forall_app in Hall.
    rewrite Hsplit. tauto.
Qed.

(** X10.  Once the listing is there, whatever the listing, the loop of
    [load_modules] over it raises only what the import of one of its
    modules raised, and only a [SyntaxError] or an exception that does not
    derive from [Exception]: an ordinary import failure never gets out of
    the loop.  (An error of [os.listdir] while the listing is built is
    another matter, and outside the model.) *)
Theorem load_modules_raises (listing : list (string * string))
    (mods : list (PyModule * string)) (e : PyExc) :
  outcome (load_modules_loop listing mods) = Raise e ->
  (is_SyntaxError e = true \/ is_Exception e = false)
  /\ exists modname sourcefile,
       In (modname, sourcefile) listing /\
       modname <> "runtests" /\
       load_module modname sourcefile = inl e.
Proof.
  destruct (loop_outcome listing mods)
    as [[_ Heq]|(pre & [modname sourcefile] & rest & e' & Hsplit & _ & Hstop & Heq)];
    rewrite Heq; simpl; [discriminate|].
  intros Hraise. injection Hraise as ->.
  unfold import_of in Hstop.
  destruct (decide (modname = "runtests")) as [|Hname]; [discriminate|].
  destruct (load_module modname sourcefile) as [err|m] eqn:Hload; [|discriminate].
  destruct (propagates err) eqn:Hprop; [|discriminate].
  injection Hstop as ->. split.
  - unfold propagates in Hprop. apply orb_true_iff in Hprop.
    rewrite negb_true_iff in Hprop. exact Hprop.
  - exists modname, sourcefile. rewrite Hsplit.
    split; [apply in_or_app; right; left; reflexivity|auto].
Qed.

End Loading.

Lemma loop_same_imports (R1 R2 : Runtime) (listing : list (string * string))
    (mods : list (PyModule * string)) :
  (forall modname sourcefile, modname <> "runtests" ->
     @load_module R1 modname sourcefile = @load_module R2 modname sourcefile) ->
  @load_modules_loop R1 listing mods = @load_modules_loop R2 listing mods.
Proof.
  intros Hsame. revert mods.
  induction listing as [|[modname sourcefile] rest IH]; intros mods; [reflexivity|].
  simpl. destruct (decide (modname = "runtests")) as [|Hname]; [apply IH|].
  rewrite (Hsame modname sourcefile Hname).
  destruct (@load_module R2 modname sourcefile) as [e|m]; [|apply IH].
  destruct (is_SyntaxError e); [reflexivity|].
  destruct (is_Exception e); [|reflexivity].
  simpl. rewrite IH. reflexivity.
Qed.

(** X11.  [load_modules] never imports a module named [runtests]: what it
    returns, raises and reports does not depend on what such an import
    would do. *)
Theorem load_modules_leaves_script_alone (R1 R2 : Runtime) (basedir : string) :
  @os_tree R1 basedir = @os_tree R2 basedir ->
  (forall modname sourcefile, modname <> "runtests" ->
     @load_module R1 modname sourcefile = @load_module R2 modname sourcefile) ->
  @load_modules R1 basedir = @load_modules R2 basedir.
Proof.
  intros Htree Hsame. unfold load_modules, load_modules_with.
  rewrite Htree. apply loop_same_imports, Hsame.
Qed.

Lemma load_modules_returns_witness :
  @load_modules Sample.a_fails "tests"
  = ([Stderr "Skipping 'test_a': No module named 'missing'"],
     Val [(Sample.module_b, "tests/test_b.py")])
  /\ [(Sample.module_b, "tests/test_b.py")].*2
     `sublist_of` (list_dir ".py" "" "tests" (@os_tree Sample.a_fails "tests")).*2.
Proof.
  assert (Hrun : @load_modules Sample.a_fails "tests"
    = ([Stderr "Skipping 'test_a': No module named 'missing'"],
       Val [(Sample.module_b, "tests/test_b.py")])).
  { vm_compute. reflexivity. }
  split; [exact Hrun|].
  destruct (@load_modules_returns Sample.a_fails "tests" _ _ Hrun) as (Hsub & _ & _).
  exact Hsub.
Defined.

Lemma load_modules_raises_witness :
  outcome (@load_modules_loop Sample.a_syntax
             [("test_b", "tests/test_b.py"); ("test_a", "tests/test_a.py")] [])
  = Raise (SyntaxError "invalid syntax")
  /\ (is_SyntaxError (SyntaxError "invalid syntax") = true \/
      is_Exception (SyntaxError "invalid syntax") = false).
Proof.
  assert (Hrun : outcome (@load_modules_loop Sample.a_syntax
                            [("test_b", "tests/test_b.py"); ("test_a", "tests/test_a.py")] [])
                 = Raise (SyntaxError "invalid syntax")).
  { vm_compute. reflexivity. }
  split; [exact Hrun|].
  destruct (@load_modules_raises Sample.a_syntax _ _ _ Hrun) as [Hkind _].
  exact Hkind.
Defined.

Lemma load_modules_leaves_script_alone_witness :
  (@os_tree (Sample.world_with_script Sample.import_script_exits) "tests"
   = @os_tree (Sample.world_with_script Sample.import_script_loads) "tests"
   /\ (forall modname sourcefile, modname <> "runtests" ->
         Sample.import_script_exits modname sourcefile
         = Sample.import_script_loads modname sourcefile))
  /\ @load_modules (Sample.world_with_script Sample.import_script_exits) "tests"
     = @load_modules (Sample.world_with_script Sample.import_script_loads) "tests".
Proof.
  assert (Hsame : forall modname sourcefile, modname <> "runtests" ->
            Sample.import_script_exits modname sourcefile
            = Sample.import_script_loads modname sourcefile).
  { intros modname sourcefile Hname.
    unfold Sample.import_script_exits, Sample.import_script_loads.
    destruct (decide (modname = "runtests")); [contradiction|reflexivity]. }
  split; [split; [reflexivity|exact Hsame]|].
  exact (load_modules_leaves_script_alone
           (Sample.world_with_script Sample.import_script_exits)
           (Sample.world_with_script Sample.import_script_loads)
           "tests" eq_refl Hsame).
Defined.

(** ** Marked names *)

(** X12.  The objects collected from a module are those bound in it under a
    name in which ['Test'] occurs, at the start, at the end or in the
    middle, with this very case; an object bound only under other names is
    not collected. *)
Theorem module_test_factories_marked (m : PyModule) (obj : PyObj) :
  In obj (module_test_factories m)
  <-> exists before after, m !! (before +:+ "Test" +:+ after) = Some obj.
Proof.
  unfold module_test_factories. rewrite in_flat_map. split.
  - intros (name & _ & Hin).
    destruct (str_contains "Test" name) eqn:Hmark; [|destruct Hin].
    apply str_contains_spec in Hmark. destruct Hmark as (before & after & ->).
    exists before, after.
    destruct (m !! (before +:+ "Test" +:+ after)) as [obj'|]; [|destruct Hin].
    destruct Hin as [->|[]]. reflexivity.
  - intros (before & after & Hbound).
    exists (before +:+ "Test" +:+ after). split.
    + apply list_elem_of_In, elem_of_elements, elem_of_dom. eexists. exact Hbound.
    + replace (str_contains "Test" (before +:+ "Test" +:+ after)) with true
        by (symmetry; apply str_contains_spec; eauto).
      rewrite Hbound. left. reflexivity.
Qed.

(** ** More on the suite *)

Section Suite.
Context `{Runtime}.

Lemma filter_sublist_impl {A} (p q : A -> bool) (l : list A) :
  (forall a, p a = true -> q a = true) ->
  List.filter p l `sublist_of` List.filter q l.
Proof.
  intros Hpq. induction l as [|a l IH]; simpl; [constructor|].
  destruct (p a) eqn:Hp.
  - rewrite (Hpq a Hp). apply sublist_skip, IH.
  - destruct (q a); [apply sublist_cons|]; exact IH.
Qed.

Lemma filter_sublist {A} (p : A -> bool) (l : list A) : List.filter p l `sublist_of` l.
Proof.
  induction l as [|a l IH]; simpl; [constructor|].
  destruct (p a); [apply sublist_skip|apply sublist_cons]; exact IH.
Qed.

Lemma matches_any_same_set (pats pats' : list string) (t : TestCase) :
  (forall pat, In pat pats <-> In pat pats') ->
  matches_any (Some pats) t = matches_any (Some pats') t.
Proof.
  intros Hsame. unfold matches_any. simpl.
  apply eq_true_iff_eq. rewrite !existsb_exists.
  split; intros (pat & Hin & Hpat); exists pat; split; auto; apply Hsame; exact Hin.
Qed.

Lemma truthy_same_set (pats pats' : list string) :
  (forall pat, In pat pats <-> In pat pats') ->
  truthy (Some pats) = truthy (Some pats').
Proof.
  intros Hsame. destruct pats as [|p l], pats' as [|p' l']; simpl; auto.
  - destruct (proj2 (Hsame p') (or_introl eq_refl)).
  - destruct (proj1 (Hsame p) (or_introl eq_refl)).
Qed.

(** X13.  With no include and no exclude pattern, whether the sets are
    [None], [()] or an empty list, the suite is every discovered test
    instance, in the order the loader made them. *)
Theorem load_tests_without_patterns (self : TestsFinder) :
  truthy (_includes self) = false ->
  truthy (_excludes self) = false ->
  load_tests self = discovered_tests self.
Proof.
  intros Hinc Hexc. rewrite load_tests_filter.
  rewrite <- (filter_all (discovered_tests self)) at 2.
  apply List.filter_ext. intros t. unfold passes_includes, passes_excludes.
  rewrite Hinc, Hexc. reflexivity.
Qed.

(** X14.  Whatever the patterns, the suite is made of discovered test
    instances only, in the order of discovery: patterns drop tests, they
    neither add, repeat nor reorder them. *)
Theorem load_tests_sublist (self : TestsFinder) :
  load_tests self `sublist_of` discovered_tests self.
Proof. rewrite load_tests_filter. apply filter_sublist. Qed.

(** X15.  One more include pattern, next to those there are, never takes a
    test out of the suite; one more exclude pattern never puts a test in. *)
Theorem load_tests_monotone (self : TestsFinder) (pat first : string)
    (pats : list string) :
  load_tests (with_includes (Some (first :: pats)) self)
    `sublist_of` load_tests (with_includes (Some (pat :: first :: pats)) self)
  /\ load_tests (with_excludes (Some (pat :: pats)) self)
       `sublist_of` load_tests (with_excludes (Some pats) self).
Proof.
  rewrite !load_tests_filter. unfold discovered_tests. simpl. split.
  - apply filter_sublist_impl. intros t.
    unfold passes_includes, passes_excludes, matches_any. simpl.
    rewrite !andb_true_iff, !orb_true_iff. tauto.
  - apply filter_sublist_impl. intros t.
    unfold passes_includes, passes_excludes, matches_any. simpl.
    rewrite !andb_true_iff. intros [Hinc Hexc]. split; [exact Hinc|].
    apply negb_true_iff, orb_false_iff in Hexc. destruct Hexc as [_ Hexc].
    destruct pats; [reflexivity|]. simpl. rewrite negb_true_iff. exact Hexc.
Qed.

(** X16.  Only the set of patterns counts: two lists with the same patterns,
    in whatever order and however often repeated, give the same suite, as
    include patterns and as exclude patterns. *)
Theorem load_tests_pattern_set (self : TestsFinder) (pats pats' : list string) :
  (forall pat, In pat pats <-> In pat pats') ->
  load_tests (with_includes (Some pats) self)
  = load_tests (with_includes (Some pats') self)
  /\ load_tests (with_excludes (Some pats) self)
     = load_tests (with_excludes (Some pats') self).
Proof.
  intros Hsame. rewrite !load_tests_filter.
  unfold discovered_tests, with_includes, with_excludes.
  cbn [_test_factories].
  split; apply List.filter_ext; intros t;
    unfold passes_includes, passes_excludes; cbn [_includes _excludes];
    rewrite (truthy_same_set pats pats' Hsame),
            (matches_any_same_set pats pats' t Hsame); reflexivity.
Qed.

End Suite.

Lemma load_tests_without_patterns_witness :
  (truthy (_includes (Sample.finder None (Some []))) = false
   /\ truthy (_excludes (Sample.finder None (Some []))) = false)
  /\ length (@load_tests Sample.plain (Sample.finder None (Some []))) = 4.
Proof.
  split; [split; reflexivity|].
  rewrite (@load_tests_without_patterns Sample.plain (Sample.finder None (Some []))
             eq_refl eq_refl).
  reflexivity.
Defined.

Lemma load_tests_pattern_set_witness :
  (forall pat, In pat ["test_x"; "test_y"] <-> In pat ["test_y"; "test_x"; "test_y"])
  /\ @load_tests Sample.plain
       (with_includes (Some ["test_x"; "test_y"]) (Sample.finder None None))
     = @load_tests Sample.plain
         (with_includes (Some ["test_y"; "test_x"; "test_y"]) (Sample.finder None None)).
Proof.
  assert (Hsame : forall pat,
            In pat ["test_x"; "test_y"] <-> In pat ["test_y"; "test_x"; "test_y"]).
  { intros pat. simpl. tauto. }
  split; [exact Hsame|].
  destruct (@load_tests_pattern_set Sample.plain (Sample.finder None None) _ _ Hsame)
    as [Hinc _].
  exact Hinc.
Defined.

(** ** The trace of runtests *)

Section Trace.
Context `{Runtime}.

Lemma set_log_level_expected (args : Args) :
  set_log_level (verbosity_of args) = ([SetLevel (expected_level args)], Val tt).
Proof.
  unfold verbosity_of, expected_level.
  destruct (quiet args), (verbose args); reflexivity.
Qed.

Lemma load_modules_loop_stderr (listing : list (string * string))
    (mods : list (PyModule * string)) :
  Forall (fun ev => exists text, ev = Stderr text)
         (events (load_modules_loop listing mods)).
Proof.
  revert mods. induction listing as [|[modname sourcefile] rest IH]; intros mods; simpl.
  - constructor.
  - destruct (decide (modname = "runtests")); [apply IH|].
    destruct (load_module modname sourcefile) as [e|m]; [|apply IH].
    destruct (is_SyntaxError e); [constructor|].
    destruct (is_Exception e); [|constructor].
    specialize (IH mods). simpl.
    destruct (load_modules_loop rest mods) as [log r]. simpl in *.
    destruct r; constructor; eauto.
Qed.

Lemma runtests_finder_load (args : Args) :
  events (runtests_finder args) = events (load_modules (testsdir args))
  /\ match outcome (load_modules (testsdir args)) with
     | Val loaded =>
         outcome (runtests_finder args)
         = Val {| _testsdir := testsdir args;
                  _includes := fst (select_patterns args);
                  _excludes := snd (select_patterns args);
                  _test_factories := flat_map module_test_factories (map fst loaded) |}
     | Raise e => outcome (runtests_finder args) = Raise e
     | Running => outcome (runtests_finder args) = Running
     end.
Proof.
  unfold runtests_finder, TestsFinder_init, find_available_tests.
  destruct (select_patterns args) as [includes excludes].
  destruct (load_modules (testsdir args)) as [log [loaded|e|]]; simpl;
    rewrite ?app_nil_r; auto.
Qed.

Lemma runtests_finder_stderr (args : Args) :
  Forall (fun ev => exists text, ev = Stderr text) (events (runtests_finder args)).
Proof.
  destruct (runtests_finder_load args) as [-> _].
  apply load_modules_loop_stderr.
Qed.

(** Past the two checks, with a finder: the steps of the setup, then the
    [try] block. *)
Lemma runtests_reached (args : Args) (fuel : nat) (flog : list Event)
    (finder : TestsFinder) :
  coverage_missing args = false ->
  os_path_isdir (os_path_abspath (testsdir args)) = true ->
  runtests_finder args = (flog, Val finder) ->
  runtests args fuel
  = (setup_steps args flog ++ events (guarded_runs args fuel finder),
     outcome (guarded_runs args fuel finder)).
Proof.
  intros Hcov Hdir Hfinder. rewrite runtests_eq, Hcov, Hdir, Hfinder.
  rewrite set_log_level_expected. unfold setup_steps.
  destruct (guarded_runs args fuel finder) as [glog gr] eqn:Hg.
  destruct (coverage args), (catchbreak args); simpl; rewrite Hg; simpl;
    rewrite <- ?app_assoc; simpl; rewrite ?app_nil_r; reflexivity.
Qed.

(** Past the two checks, without a finder: nothing after the attempt to
    build it. *)
Lemma runtests_no_finder (args : Args) (fuel : nat) (flog : list Event) (e : PyExc) :
  coverage_missing args = false ->
  os_path_isdir (os_path_abspath (testsdir args)) = true ->
  runtests_finder args = (flog, Raise e) ->
  runtests args fuel
  = ((if coverage args then [CoverageStart] else []) ++ flog, Raise e).
Proof.
  intros Hcov Hdir Hfinder. rewrite runtests_eq, Hcov, Hdir, Hfinder.
  destruct (coverage args); simpl; rewrite ?app_nil_r; reflexivity.
Qed.

Lemma runtests_finder_never_running (args : Args) :
  outcome (runtests_finder args) <> Running.
Proof.
  destruct (runtests_finder_load args) as [_ Hout].
  unfold load_modules, load_modules_with in Hout.
  destruct (loop_outcome (list_dir ".py" "" (testsdir args) (os_tree (testsdir args))) [])
    as [[_ Heq]|(pre & stop & rest & e & _ & _ & _ & Heq)];
    rewrite Heq in Hout; simpl in Hout; rewrite Hout; discriminate.
Qed.

Lemma guarded_runs_exact (args : Args) (fuel : nat) (finder : TestsFinder) :
  guarded_runs args fuel finder
  = (events (runs args fuel finder) ++
     match outcome (runs args fuel finder) with
     | Running => []
     | _ => if coverage args then [CoverageReport] else []
     end,
     outcome (runs args fuel finder)).
Proof.
  change (guarded_runs args fuel finder)
    with (try_finally (runs args fuel finder) (coverage_report args)).
  unfold coverage_report.
  destruct (runs args fuel finder) as [log [a|e|]];
    destruct (coverage args); simpl; rewrite ?app_nil_r; reflexivity.
Qed.

Lemma forever_loop_allowed (args : Args) (finder : TestsFinder) (fuel n : nat) :
  outcome (runtests_finder args) = Val finder ->
  Forall (step_allowed args)
    (events (forever_loop fuel finder
               (if findleaks args then TestRunner else TextTestRunner)
               (verbosity_of args) (failfast args) n)).
Proof.
  intros Hfinder. revert n. induction fuel as [|fuel IH]; intros n; [constructor|].
  rewrite forever_loop_step.
  assert (Hround : Forall (step_allowed args)
            (iteration finder (if findleaks args then TestRunner else TextTestRunner)
               (verbosity_of args) (failfast args))).
  { repeat constructor; simpl; intros finder' Hfinder';
      rewrite Hfinder in Hfinder'; injection Hfinder' as <-; reflexivity. }
  destruct (wasSuccessful _); [|exact Hround].
  unfold events at 1. cbn [fst].
  apply Forall_app. split; [exact Hround|apply IH].
Qed.

Lemma runs_allowed (args : Args) (fuel : nat) (finder : TestsFinder) :
  outcome (runtests_finder args) = Val finder ->
  Forall (step_allowed args) (events (runs args fuel finder)).
Proof.
  intros Hfinder. unfold runs. destruct (forever args).
  - apply forever_loop_allowed, Hfinder.
  - repeat constructor; simpl; intros finder' Hfinder';
      rewrite Hfinder in Hfinder'; injection Hfinder' as <-; reflexivity.
Qed.

(** Every step of [runtests] is in keeping with the options. *)
Lemma runtests_steps_allowed (args : Args) (fuel : nat) :
  Forall (step_allowed args) (events (runtests args fuel)).
Proof.
  destruct (coverage_missing args) eqn:Hcov.
  { rewrite runtests_eq, Hcov. repeat constructor. }
  destruct (os_path_isdir (os_path_abspath (testsdir args))) eqn:Hdir.
  2:{ rewrite runtests_eq, Hcov, Hdir. repeat constructor. }
  assert (Hstart : Forall (step_allowed args)
            (if coverage args then [CoverageStart] else [])).
  { destruct (coverage args) eqn:Hc; repeat constructor. exact Hc. }
  assert (Hflog : Forall (step_allowed args) (events (runtests_finder args))).
  { eapply Forall_impl; [apply runtests_finder_stderr|].
    intros ev [text ->]. exact I. }
  pose proof (runtests_finder_never_running args) as Hnever.
  destruct (runtests_finder args) as [flog [finder|e|]] eqn:Hfinder;
    simpl in Hflog, Hnever; [| |contradiction].
  - rewrite (runtests_reached args fuel flog finder Hcov Hdir Hfinder).
    rewrite guarded_runs_exact. simpl. unfold setup_steps.
    repeat (apply Forall_app; split); auto.
    + repeat constructor.
    + destruct (catchbreak args) eqn:Hc; repeat constructor. exact Hc.
    + apply runs_allowed. rewrite Hfinder. reflexivity.
    + destruct (outcome (runs args fuel finder)); try constructor;
        destruct (coverage args) eqn:Hc; repeat constructor; exact Hc.
  - rewrite (runtests_no_finder args fuel flog e Hcov Hdir Hfinder). simpl.
    apply Forall_app. split; assumption.
Qed.

Lemma finder_selects (args : Args) (finder : TestsFinder) :
  outcome (runtests_finder args) = Val finder ->
  load_tests finder = selected args finder.
Proof.
  intros Hfinder. destruct (runtests_finder_load args) as [_ Hout].
  destruct (outcome (load_modules (testsdir args))) as [loaded|e|];
    rewrite Hout in Hfinder; try discriminate.
  injection Hfinder as <-.
  rewrite load_tests_filter. unfold selected, discovered_tests.
  unfold passes_includes, passes_excludes, select_patterns. cbn [_test_factories].
  destruct (exclude args); cbn [_includes _excludes fst snd truthy].
  - destruct (truthy (pattern args)); [reflexivity|]. apply filter_all.
  - destruct (truthy (pattern args)).
    + apply List.filter_ext. intros t. apply andb_true_r.
    + apply filter_all.
Qed.

(** X17.  A single pass that gets as far as its finder builds one suite and
    runs it once, and the suite follows from the options alone: without
    [--pattern] it is every discovered test; with patterns it is the
    discovered tests whose id matches one of them, or with [-x] those whose
    id matches none. *)
Theorem runtests_single_pass (args : Args) (fuel : nat) (finder : TestsFinder) :
  forever args = false ->
  coverage_missing args = false ->
  os_path_isdir (os_path_abspath (testsdir args)) = true ->
  outcome (runtests_finder args) = Val finder ->
  suite_steps (events (runtests args fuel))
  = [LoadTests (selected args finder);
     RunSuite (if findleaks args then TestRunner else TextTestRunner)
       (verbosity_of args) (failfast args) (selected args finder)].
Proof.
  intros Hmode Hcov Hdir Hfinder.
  destruct (runtests_finder args) as [flog r] eqn:Hf. simpl in Hfinder. subst r.
  rewrite (runtests_reached args fuel flog finder Hcov Hdir Hf).
  rewrite guarded_runs_exact. unfold runs. rewrite Hmode.
  rewrite <- (finder_selects args finder) by (rewrite Hf; reflexivity).
  unfold setup_steps, suite_steps. simpl events.
  rewrite !List.filter_app.
  assert (Hflog : List.filter is_suite_step flog = []).
  { pose proof (runtests_finder_stderr args) as Hs. rewrite Hf in Hs. simpl in Hs.
    clear Hf. induction Hs as [|ev flog [text ->] _ IH]; [reflexivity|exact IH]. }
  rewrite Hflog.
  destruct (coverage args), (catchbreak args); reflexivity.
Qed.

(** X18.  Whatever the options, the only level [runtests] ever sets on the
    root logger is [CRITICAL] with [-q], else [WARNING] with [-v], else
    [ERROR]: the branches for [INFO] and [DEBUG] are never taken. *)
Theorem runtests_log_level (args : Args) (fuel : nat) :
  Forall (fun ev =>
    match ev with
    | SetLevel level =>
        level = (if quiet args then CRITICAL
                 else if verbose args then WARNING else ERROR) /\
        level <> INFO /\ level <> DEBUG
    | _ => True
    end) (events (runtests args fuel)).
Proof.
  eapply Forall_impl; [apply runtests_steps_allowed|].
  intros [| | | | |level| | |] Hstep; try exact I.
  simpl in Hstep. subst level. unfold expected_level.
  destruct (quiet args), (verbose args); repeat split; discriminate.
Qed.

(** X19.  Every run of an execution is made the same way: by the leak
    reporting runner if [--findleaks] is given and by the plain one
    otherwise, with verbosity 0 under [-q], else 2 under [-v], else 1, and
    with the [failfast] option as given. *)
Theorem runtests_runs_alike (args : Args) (fuel : nat) :
  Forall (fun ev =>
    match ev with
    | RunSuite runner v ff _ =>
        runner = (if findleaks args then TestRunner else TextTestRunner) /\
        v = (if quiet args then 0 else if verbose args then 2 else 1)%Z /\
        ff = failfast args
    | _ => True
    end) (events (runtests args fuel)).
Proof.
  eapply Forall_impl; [apply runtests_steps_allowed|].
  intros [| | | | | | | |runner v ff suite] Hstep; try exact I.
  simpl in Hstep. destruct Hstep as (-> & -> & -> & _).
  repeat split. unfold verbosity_of. destruct (quiet args), (verbose args); reflexivity.
Qed.

(** X20.  Coverage is measured and reported only under [--coverage], and
    the interrupt handler is installed only under [--catch]. *)
Theorem runtests_only_when_asked (args : Args) (fuel : nat) :
  Forall (fun ev =>
    match ev with
    | CoverageStart | CoverageReport => coverage args = true
    | InstallHandler => catchbreak args = true
    | _ => True
    end) (events (runtests args fuel)).
Proof.
  eapply Forall_impl; [apply runtests_steps_allowed|].
  intros [| | | | | | | |] Hstep; try exact I; exact Hstep.
Qed.

Lemma runs_suite_steps (args : Args) (fuel : nat) (finder : TestsFinder) :
  Forall (fun ev => is_suite_step ev = true) (events (runs args fuel finder)).
Proof.
  unfold runs. destruct (forever args); [|repeat constructor].
  generalize 0. induction fuel as [|fuel IH]; intros n; [constructor|].
  rewrite forever_loop_step.
  destruct (wasSuccessful _); [|repeat constructor].
  unfold events at 1. cbn [fst]. apply Forall_app. split; [repeat constructor|apply IH].
Qed.

(** X21.  Under [--coverage], an execution that gets its finder starts the
    measure first of all and, once the runs are over, ends on the coverage
    report, although it is [sys.exit] that ends the runs; as long as the
    forever loop goes on there is no report. *)
Theorem runtests_coverage_bracket (args : Args) (fuel : nat) (finder : TestsFinder) :
  coverage args = true ->
  coverage_missing args = false ->
  os_path_isdir (os_path_abspath (testsdir args)) = true ->
  outcome (runtests_finder args) = Val finder ->
  head (events (runtests args fuel)) = Some CoverageStart
  /\ (outcome (runtests args fuel) <> Running ->
      last (events (runtests args fuel)) = Some CoverageReport)
  /\ (outcome (runtests args fuel) = Running ->
      ~ In CoverageReport (events (runtests args fuel))).
Proof.
  intros Hc Hcov Hdir Hfinder.
  destruct (runtests_finder args) as [flog r] eqn:Hf. simpl in Hfinder. subst r.
  rewrite (runtests_reached args fuel flog finder Hcov Hdir Hf).
  rewrite guarded_runs_exact. unfold setup_steps. rewrite Hc.
  unfold outcome, events. cbn [fst snd].
  split; [reflexivity|]. split.
  - intros Hover. destruct (snd (runs args fuel finder)); try contradiction;
      rewrite !app_assoc; apply last_snoc.
  - intros Hrun. rewrite Hrun, app_nil_r.
    assert (Hno : Forall (fun ev => ev <> CoverageReport)
              (([CoverageStart] ++ flog ++ [SetLevel (expected_level args)] ++
                (if catchbreak args then [InstallHandler] else [])) ++
               fst (runs args fuel finder))).
    { repeat (apply Forall_app; split).
      - repeat constructor. discriminate.
      - pose proof (runtests_finder_stderr args) as Hstderr. rewrite Hf in Hstderr.
        eapply Forall_impl; [exact Hstderr|]. intros ev [text ->]. discriminate.
      - repeat constructor. discriminate.
      - destruct (catchbreak args); repeat constructor. discriminate.
      - eapply Forall_impl; [apply runs_suite_steps|].
        intros ev Hstep ->. discriminate Hstep. }
    rewrite List.Forall_forall in Hno. intros Hin. exact (Hno _ Hin eq_refl).
Qed.

(** X22.  When an import is raised out of [load_modules], [runtests] lets
    the exception through: no suite is built or run, and the coverage
    report is not written even under [--coverage], the finder being built
    before the [try] block.  The process ends with the code of a
    [SystemExit], and with status 1 for a [SyntaxError]. *)
Theorem runtests_import_raises (args : Args) (fuel : nat) (e : PyExc) :
  coverage_missing args = false ->
  os_path_isdir (os_path_abspath (testsdir args)) = true ->
  outcome (load_modules (testsdir args)) = Raise e ->
  outcome (runtests args fuel) = Raise e
  /\ suite_steps (events (runtests args fuel)) = []
  /\ ~ In CoverageReport (events (runtests args fuel))
  /\ exit_status (outcome (runtests args fuel))
     = Some (match e with SystemExit code => code | _ => 1%Z end).
Proof.
  intros Hcov Hdir Hload.
  destruct (runtests_finder_load args) as [Hev Hout]. rewrite Hload in Hout.
  pose proof (runtests_finder_stderr args) as Hstderr.
  destruct (runtests_finder args) as [flog r] eqn:Hf. simpl in Hout, Hstderr. subst r.
  rewrite (runtests_no_finder args fuel flog e Hcov Hdir Hf).
  unfold outcome, events. cbn [fst snd].
  assert (Hno : Forall (fun ev => is_suite_step ev = false /\ ev <> CoverageReport)
            ((if coverage args then [CoverageStart] else []) ++ flog)).
  { apply Forall_app. split.
    - destruct (coverage args); repeat constructor. discriminate.
    - eapply Forall_impl; [exact Hstderr|]. intros ev [text ->].
      split; [reflexivity|discriminate]. }
  split; [reflexivity|]. split; [|split].
  - apply suite_steps_none. eapply Forall_impl; [exact Hno|]. intros ev [Hs _]. exact Hs.
  - rewrite List.Forall_forall in Hno. intros Hin. exact (proj2 (Hno _ Hin) eq_refl).
  - destruct e; reflexivity.
Qed.

End Trace.

Lemma runtests_single_pass_witness :
  (forever (Sample.with_patterns true ["ATest"] Sample.args) = false
   /\ @coverage_missing Sample.plain (Sample.with_patterns true ["ATest"] Sample.args)
      = false
   /\ @os_path_isdir Sample.plain
        (@os_path_abspath Sample.plain
           (testsdir (Sample.with_patterns true ["ATest"] Sample.args))) = true
   /\ outcome (@runtests_finder Sample.plain
                 (Sample.with_patterns true ["ATest"] Sample.args))
      = Val (Sample.finder (Some []) (Some ["ATest"])))
  /\ suite_steps (events (@runtests Sample.plain
                            (Sample.with_patterns true ["ATest"] Sample.args) 0))
     = [LoadTests [ {| test_id := "test_b.BTests.test_x" |} ];
        RunSuite TextTestRunner 1 false [ {| test_id := "test_b.BTests.test_x" |} ]].
Proof.
  assert (Hfinder : outcome (@runtests_finder Sample.plain
                               (Sample.with_patterns true ["ATest"] Sample.args))
                    = Val (Sample.finder (Some []) (Some ["ATest"]))).
  { vm_compute. reflexivity. }
  split; [split; [reflexivity|split; [reflexivity|split; [reflexivity|exact Hfinder]]]|].
  rewrite (@runtests_single_pass Sample.plain
             (Sample.with_patterns true ["ATest"] Sample.args) 0 _
             eq_refl eq_refl eq_refl Hfinder).
  vm_compute. reflexivity.
Defined.

Lemma runtests_coverage_bracket_witness :
  (coverage (Sample.with_coverage Sample.args) = true
   /\ @coverage_missing Sample.first_run_fails (Sample.with_coverage Sample.args) = false
   /\ @os_path_isdir Sample.first_run_fails
        (@os_path_abspath Sample.first_run_fails
           (testsdir (Sample.with_coverage Sample.args))) = true
   /\ outcome (@runtests_finder Sample.first_run_fails (Sample.with_coverage Sample.args))
      = Val (Sample.finder None (Some [])))
  /\ exit_status (outcome (@runtests Sample.first_run_fails
                             (Sample.with_coverage Sample.args) 0)) = Some 1%Z
  /\ last (events (@runtests Sample.first_run_fails (Sample.with_coverage Sample.args) 0))
     = Some CoverageReport.
Proof.
  assert (Hfinder : outcome (@runtests_finder Sample.first_run_fails
                               (Sample.with_coverage Sample.args))
                    = Val (Sample.finder None (Some []))).
  { vm_compute. reflexivity. }
  split; [split; [reflexivity|split; [reflexivity|split; [reflexivity|exact Hfinder]]]|].
  split; [vm_compute; reflexivity|].
  destruct (@runtests_coverage_bracket Sample.first_run_fails
              (Sample.with_coverage Sample.args) 0 _ eq_refl eq_refl eq_refl Hfinder)
    as (_ & Hlast & _).
  apply Hlast. vm_compute. discriminate.
Defined.

Lemma runtests_import_raises_witness :
  (@coverage_missing Sample.a_syntax (Sample.with_coverage Sample.args) = false
   /\ @os_path_isdir Sample.a_syntax
        (@os_path_abspath Sample.a_syntax
           (testsdir (Sample.with_coverage Sample.args))) = true
   /\ outcome (@load_modules Sample.a_syntax (testsdir (Sample.with_coverage Sample.args)))
      = Raise (SyntaxError "invalid syntax"))
  /\ @runtests Sample.a_syntax (Sample.with_coverage Sample.args) 0
     = ([CoverageStart], Raise (SyntaxError "invalid syntax"))
  /\ exit_status (outcome (@runtests Sample.a_syntax (Sample.with_coverage Sample.args) 0))
     = Some 1%Z.
Proof.
  assert (Hload : outcome (@load_modules Sample.a_syntax
                             (testsdir (Sample.with_coverage Sample.args)))
                  = Raise (SyntaxError "invalid syntax")).
  { vm_compute. reflexivity. }
  split; [split; [reflexivity|split; [reflexivity|exact Hload]]|].
  split; [vm_compute; reflexivity|].
  destruct (@runtests_import_raises Sample.a_syntax (Sample.with_coverage Sample.args)
              0 _ eq_refl eq_refl Hload) as (_ & _ & _ & Hexit).
  exact Hexit.
Defined.

(** ** More on leak tracking *)

Section MoreLeaks.
Context {Base : Type} `{TextTestResult Base}.

Lemma successes_cons (e : Execution) (es : list Execution) :
  successes (e :: es)
  = (if bool_decide (exec_outcome e = Success) then 1 else 0) + successes es.
Proof.
  unfold successes. simpl.
  destruct (bool_decide (exec_outcome e = Success)); reflexivity.
Qed.

(** What one test adds to the leak entries: nothing, or one entry that is
    not empty, and nothing unless the test is successful. *)
Lemma run_test_adds (st : TestResult * GC) (e : Execution) :
  exists later,
    leaks (fst (run_test st e)) = leaks (fst st) ++ later /\
    Forall (fun entry => snd entry <> []) later /\
    length later <= (if bool_decide (exec_outcome e = Success) then 1 else 0).
Proof.
  destruct (decide (exec_outcome e = Success)) as [Hok|Hno].
  - destruct (run_test_success st e Hok) as (Hleaks & _). cbv zeta in Hleaks.
    rewrite bool_decide_eq_true_2 by exact Hok.
    eexists. split; [exact Hleaks|].
    destruct (uncollected_after st e); simpl.
    + split; [constructor|lia].
    + split; [repeat constructor; discriminate|lia].
  - destruct (run_test_other st e Hno) as (Hleaks & _). cbv zeta in Hleaks.
    exists []. rewrite app_nil_r. split; [exact Hleaks|]. split; [constructor|simpl; lia].
Qed.

Lemma run_tests_adds (es : list Execution) (st : TestResult * GC) :
  exists later,
    leaks (fst (run_tests st es)) = leaks (fst st) ++ later /\
    Forall (fun entry => snd entry <> []) later /\
    length later <= successes es.
Proof.
  revert st. induction es as [|e es IH]; intros st.
  - exists []. simpl. rewrite app_nil_r. split; [reflexivity|]. split; [constructor|lia].
  - destruct (run_test_adds st e) as (now & Hnow & Hne & Hlen).
    destruct (IH (run_test st e)) as (later & Hlater & Hne' & Hlen').
    exists (now ++ later). simpl. rewrite Hlater, Hnow, app_assoc.
    split; [reflexivity|]. split; [apply Forall_app; auto|].
    rewrite length_app, successes_cons. lia.
Qed.

(** X23.  In the leak entries of a run no entry is empty, and there are at
    most as many entries as tests that succeeded. *)
Theorem leak_entries_bounded (b : Base) (g : GC) (es : list Execution) :
  Forall (fun entry => snd entry <> [])
         (leaks (fst (run_tests (TestResult_init b, g) es)))
  /\ length (leaks (fst (run_tests (TestResult_init b, g) es))) <= successes es.
Proof.
  destruct (run_tests_adds es (TestResult_init b, g)) as (later & Heq & Hne & Hlen).
  simpl in Heq. rewrite Heq. auto.
Qed.

Lemma run_test_clean (st : TestResult * GC) (e : Execution) :
  gc_garbage (snd st) = [] -> gc_unreached (snd st) = [] -> exec_left e = 0 ->
  leaks (fst (run_test st e)) = leaks (fst st)
  /\ gc_garbage (snd (run_test st e)) = []
  /\ gc_unreached (snd (run_test st e)) = [].
Proof.
  intros Hg Hu Hleft.
  destruct (decide (exec_outcome e = Success)) as [Hok|Hno].
  - destruct (run_test_success st e Hok) as (Hleaks & Hg' & Hu' & _). cbv zeta in *.
    unfold uncollected_after, left_by in Hleaks. rewrite Hg, Hu, Hleft in Hleaks.
    simpl in Hleaks. rewrite app_nil_r in Hleaks. auto.
  - destruct (run_test_other st e Hno) as (Hleaks & Hg' & Hu' & _). cbv zeta in *.
    unfold left_by in Hu'. rewrite Hg, Hu in Hg'. rewrite Hleft in Hu'. auto.
Qed.

(** X24.  No false alarm: when the collector holds no uncollectable object
    at the start and no test leaves one, the run records no leak, whatever
    the outcomes of the tests. *)
Theorem clean_run_no_leak (b : Base) (g : GC) (es : list Execution) :
  gc_garbage g = [] ->
  gc_unreached g = [] ->
  Forall (fun e => exec_left e = 0) es ->
  leaks (fst (run_tests (TestResult_init b, g) es)) = [].
Proof.
  intros Hg Hu Hes.
  assert (Hinv : forall st : TestResult * GC,
            gc_garbage (snd st) = [] -> gc_unreached (snd st) = [] ->
            leaks (fst (run_tests st es)) = leaks (fst st)).
  { induction Hes as [|e es He _ IH]; intros st Hg' Hu'; [reflexivity|].
    destruct (run_test_clean st e Hg' Hu' He) as (Hleaks & Hg'' & Hu'').
    simpl. rewrite IH by assumption. exact Hleaks. }
  apply (Hinv (TestResult_init b, g)); assumption.
Qed.

Lemma tracked_run_tests (es : list Execution) (st : TestResult * GC) :
  tracked (run_tests st es) = tracked st ++ seq (gc_next (snd st)) (total_left es)
  /\ gc_next (snd (run_tests st es)) = gc_next (snd st) + total_left es.
Proof.
  revert st. induction es as [|e es IH]; intros st.
  - unfold total_left. simpl. rewrite app_nil_r. split; [reflexivity|lia].
  - destruct (tracked_run_test st e) as [Ht Hn].
    destruct (IH (run_test st e)) as [Ht' Hn'].
    change (run_tests st (e :: es)) with (run_tests (run_test st e) es).
    unfold total_left in *.
    change (list_sum (map exec_left (e :: es)))
      with (exec_left e + list_sum (map exec_left es)).
    rewrite Ht', Hn', Ht, Hn. unfold left_by. split; [|lia].
    rewrite <- app_assoc, seq_app. reflexivity.
Qed.

(** X25.  Nothing is lost: right after a successful test, the leak entries
    hold, in allocation order, every uncollectable object there was at the
    start of the run and every one a test of the run has left since,
    whatever the outcome of that test; the collector holds none. *)
Theorem leaks_complete_after_success (st : TestResult * GC) (es : list Execution)
    (e : Execution) :
  exec_outcome e = Success ->
  let st' := run_tests st (es ++ [e]) in
  concat (leaks (fst st')).*2
  = tracked st ++ seq (gc_next (snd st)) (total_left (es ++ [e]))
  /\ gc_garbage (snd st') = [] /\ gc_unreached (snd st') = [].
Proof.
  intros Hok st'.
  destruct (tracked_run_tests (es ++ [e]) st) as [Ht _]. fold st' in Ht.
  assert (Hlast : gc_garbage (snd st') = [] /\ gc_unreached (snd st') = []).
  { subst st'. unfold run_tests. rewrite fold_left_app. simpl.
    destruct (run_test_success (fold_left run_test es st) e Hok) as (_ & Hg & Hu & _).
    auto. }
  destruct Hlast as [Hg Hu]. split; [|auto].
  unfold tracked in Ht at 1. rewrite Hg, Hu, !app_nil_r in Ht. exact Ht.
Qed.

(** X26.  The objects a test leaves when it does not succeed are reported
    with the next test that does: if a successful test comes right after,
    its leak entry holds them, under the description of the successful
    test. *)
Theorem leftovers_go_to_next_success (st : TestResult * GC) (e1 e2 : Execution) :
  exec_outcome e1 <> Success ->
  exec_outcome e2 = Success ->
  0 < exec_left e1 ->
  let st' := run_tests st [e1; e2] in
  exists objs,
    leaks (fst st')
    = leaks (fst st) ++ [(getDescription (base (fst st')) (exec_test e2), objs)]
    /\ forall obj, In obj (left_by (snd st) e1) -> In obj objs.
Proof.
  intros Hno Hok Hleft st'.
  destruct (run_test_other st e1 Hno) as (Hleaks1 & Hg1 & Hu1 & _).
  destruct (run_test_success (run_test st e1) e2 Hok) as (Hleaks2 & _).
  cbv zeta in *. subst st'. simpl.
  rewrite Hleaks2, Hleaks1. unfold uncollected_after. rewrite Hg1, Hu1.
  assert (Hin : forall obj, In obj (left_by (snd st) e1) ->
            In obj ((gc_garbage (snd st) ++ gc_unreached (snd st)) ++
                    left_by (snd st) e1 ++ left_by (snd (run_test st e1)) e2)).
  { intros obj Hobj. apply in_or_app. right. apply in_or_app. left. exact Hobj. }
  destruct ((gc_garbage (snd st) ++ gc_unreached (snd st)) ++
            left_by (snd st) e1 ++ left_by (snd (run_test st e1)) e2)
    as [|obj objs] eqn:Hobjs.
  - exfalso. unfold left_by in Hin. destruct (exec_left e1) as [|k]; [lia|].
    apply (Hin (gc_next (snd st))). simpl. auto.
  - exists (obj :: objs). split; [reflexivity|exact Hin].
Qed.

(** X27.  The leak report of [TestRunner.run]: with no leak entry nothing
    is written and the result comes back as it was; with entries, a first
    line gives their number, then comes one line for each entry and one for
    each of its objects.  The entries themselves are left as they are. *)
Theorem leak_report_lines (repr : PyObj -> string) (result : TestResult) :
  leaks (TestRunner_run repr result) = leaks result
  /\ (leaks result = [] -> TestRunner_run repr result = result)
  /\ (leaks result <> [] ->
      head (leak_report repr (leaks result))
      = Some (pretty (length (leaks result)) +:+ " tests leaks:") /\
      length (leak_report repr (leaks result))
      = 1 + length (leaks result) + length (concat (leaks result).*2)).
Proof.
  split; [reflexivity|]. split.
  - intros Hnone. destruct result as [b l]. simpl in Hnone. subst l. reflexivity.
  - intros Hsome. destruct (leaks result) as [|entry rest] eqn:Hleaks; [contradiction|].
    split; [reflexivity|].
    assert (Hbody : forall l : list (string * list PyObj),
              length (flat_map (fun entry =>
                        ("    " +:+ fst entry +:+ ":") ::
                        map (fun leak => "        " +:+ repr leak) (snd entry)) l)
              = length l + length (concat l.*2)).
    { induction l as [|[name objs] l IH]; [reflexivity|].
      rewrite fmap_cons. cbn [flat_map concat fst snd].
      rewrite length_app, length_app, IH. cbn [length]. rewrite length_map. lia. }
    cbn [leak_report]. cbn [length]. rewrite Hbody. cbn [length]. lia.
Qed.

End MoreLeaks.

Lemma clean_run_no_leak_witness :
  (gc_garbage gc_start = [] /\ gc_unreached gc_start = []
   /\ Forall (fun e => exec_left e = 0) [Sample.passing_clean; Sample.passing_clean])
  /\ leaks (fst (run_tests Sample.fresh [Sample.passing_clean; Sample.passing_clean])) = [].
Proof.
  assert (Hclean : Forall (fun e => exec_left e = 0)
                     [Sample.passing_clean; Sample.passing_clean])
    by (repeat constructor).
  split; [split; [reflexivity|split; [reflexivity|exact Hclean]]|].
  exact (clean_run_no_leak [] gc_start _ eq_refl eq_refl Hclean).
Defined.

Lemma leaks_complete_after_success_witness :
  exec_outcome Sample.passing_clean = Success
  /\ concat (leaks (fst (run_tests Sample.fresh
       ([Sample.failing_leaky; Sample.passing_leaky; Sample.failing_leaky]
        ++ [Sample.passing_clean])))).*2
     = [0; 1; 2; 3].
Proof.
  split; [reflexivity|].
  destruct (leaks_complete_after_success Sample.fresh
              [Sample.failing_leaky; Sample.passing_leaky; Sample.failing_leaky]
              Sample.passing_clean eq_refl) as [Hall _].
  rewrite Hall. reflexivity.
Defined.

Lemma leftovers_go_to_next_success_witness :
  (exec_outcome Sample.failing_leaky <> Success
   /\ exec_outcome Sample.passing_clean = Success
   /\ 0 < exec_left Sample.failing_leaky)
  /\ exists objs,
       leaks (fst (run_tests Sample.fresh [Sample.failing_leaky; Sample.passing_clean]))
       = [("test_a.ATest.test_y", objs)] /\ In 0 objs.
Proof.
  assert (Hno : exec_outcome Sample.failing_leaky <> Success) by discriminate.
  assert (Hleft : 0 < exec_left Sample.failing_leaky) by (apply Nat.ltb_lt; reflexivity).
  split; [split; [exact Hno|split; [reflexivity|exact Hleft]]|].
  destruct (leftovers_go_to_next_success Sample.fresh Sample.failing_leaky
              Sample.passing_clean Hno eq_refl Hleft) as (objs & Heq & Hin).
  exists objs. split; [exact Heq|]. apply Hin. simpl. auto.
Defined.

Lemma leak_report_lines_witness :
  leaks (fst (run_test Sample.fresh Sample.passing_leaky)) <> []
  /\ leak_report pretty (leaks (fst (run_test Sample.fresh Sample.passing_leaky)))
     = ["1 tests leaks:"; "    test_a.ATest.test_z:"; "        0"; "        1"].
Proof.
  assert (Hsome : leaks (fst (run_test Sample.fresh Sample.passing_leaky)) <> [])
    by discriminate.
  split; [exact Hsome|].
  destruct (leak_report_lines pretty (fst (run_test Sample.fresh Sample.passing_leaky)))
    as (_ & _ & Hlines).
  destruct (Hlines Hsome) as [Hhead Hlen].
  destruct (leak_report pretty (leaks (fst (run_test Sample.fresh Sample.passing_leaky))))
    as [|header body] eqn:Hreport; [discriminate Hhead|].
  rewrite <- Hreport. vm_compute. reflexivity.
Defined.

(** ** The forever loop *)

Lemma runtests_finder_factories `{Runtime} (args : Args) (finder : TestsFinder) :
  outcome (runtests_finder args) = Val finder ->
  outcome (find_available_tests (testsdir args)) = Val (_test_factories finder).
Proof.
  unfold runtests_finder, TestsFinder_init.
  destruct (select_patterns args) as [includes excludes].
  destruct (find_available_tests (testsdir args)) as [log [factories|e|]];
    simpl; try discriminate.
  intros Heq. injection Heq as <-. reflexivity.
Qed.

(** C8.  In forever mode, once the script has its finder, each iteration of
    the loop builds the suite anew from the discovered test factories, that
    is the test instances the loader makes from the factories
    [find_available_tests] has collected, narrowed by the patterns of the
    command line, and runs it.  As long as every run is successful the loop
    goes on: after any number of iterations the process is still running,
    having built and run the suite once per iteration.  The first
    unsuccessful run ends the process with exit status 1, and no suite is
    built or run after it. *)
Theorem forever_mode `{Runtime} (args : Args) (finder : TestsFinder) :
  forever args = true ->
  coverage_missing args = false ->
  os_path_isdir (os_path_abspath (testsdir args)) = true ->
  outcome (runtests_finder args) = Val finder ->
  let runner := if findleaks args then TestRunner else TextTestRunner in
  let suite := selected args finder in
  let round := [LoadTests suite;
                RunSuite runner (verbosity_of args) (failfast args) suite] in
  let result := fun i => unittest_run i runner (verbosity_of args) (failfast args) suite in
  outcome (find_available_tests (testsdir args)) = Val (_test_factories finder)
  /\ (forall fuel,
       (forall i, i < fuel -> wasSuccessful (result i) = true) ->
       outcome (runtests args fuel) = Running /\
       exit_status (outcome (runtests args fuel)) = None /\
       suite_steps (events (runtests args fuel)) = concat (replicate fuel round))
  /\ (forall j fuel,
       j < fuel ->
       (forall i, i < j -> wasSuccessful (result i) = true) ->
       wasSuccessful (result j) = false ->
       exit_status (outcome (runtests args fuel)) = Some 1%Z /\
       suite_steps (events (runtests args fuel)) = concat (replicate (S j) round)).
Proof.
  intros Hmode Hcov Hdir Hfinder runner suite round result.
  split; [apply runtests_finder_factories, Hfinder|].
  pose proof (finder_selects args finder Hfinder) as Hsel.
  destruct (forever_rounds args finder Hmode Hcov Hdir Hfinder) as [Hok Hfail].
  unfold nth_result, loop_result, iteration in Hok, Hfail.
  rewrite Hsel in Hok, Hfail.
  split; [exact Hok|exact Hfail].
Qed.

Lemma forever_mode_witness :
  (forever (Sample.with_forever Sample.args) = true
   /\ @coverage_missing Sample.third_run_fails (Sample.with_forever Sample.args) = false
   /\ @os_path_isdir Sample.third_run_fails
        (@os_path_abspath Sample.third_run_fails
           (testsdir (Sample.with_forever Sample.args))) = true
   /\ outcome (@runtests_finder Sample.third_run_fails (Sample.with_forever Sample.args))
      = Val (Sample.finder None (Some [])))
  /\ exit_status (outcome (@runtests Sample.third_run_fails
                            (Sample.with_forever Sample.args) 5)) = Some 1%Z
  /\ length (suite_steps (events (@runtests Sample.third_run_fails
                                    (Sample.with_forever Sample.args) 5))) = 6.
Proof.
  assert (Hfinder :
    outcome (@runtests_finder Sample.third_run_fails (Sample.with_forever Sample.args))
    = Val (Sample.finder None (Some []))).
  { vm_compute. reflexivity. }
  split; [split; [reflexivity|split; [reflexivity|split; [reflexivity|exact Hfinder]]]|].
  destruct (@forever_mode Sample.third_run_fails (Sample.with_forever Sample.args)
              (Sample.finder None (Some [])) eq_refl eq_refl eq_refl Hfinder)
    as (_ & _ & Hfail).
  destruct (Hfail 2 5) as [Hexit Hsteps].
  - apply Nat.ltb_lt. reflexivity.
  - intros [|[|i]] Hi; [reflexivity|reflexivity|].
    apply Nat.ltb_lt in Hi. discriminate Hi.
  - reflexivity.
  - split; [exact Hexit|]. rewrite Hsteps. reflexivity.
Defined.
